(** * bank-oracle: the [BankAccount] class of [bank_account_bugs.py]

    A shallow embedding of the account class and the proofs of its
    accounting properties.

    Modelling decisions.
    - Amounts.  Python computes with [float], the IEEE 754 binary64 format.
      Amounts are primitive floats of the same format: [+], [-] and the
      comparisons are the rounded operations of the processor, with their
      infinities, signed zeros and NaN.  What is proved of them rests on the
      specification of the format in the Standard Library ([SpecFloat], tied
      to the primitives by [FloatAxioms]).
    - Objects.  A check is a Python object that the account keeps by
      reference in two lists.  A reference is a [ref]; the immutable
      contents of every check object are given by a store [heap].  The
      list operations [in] and [remove] compare references.
    - Strings.  A string is the sequence of its bytes.  [str.lower] is a
      parameter [lower] of the development: nothing is assumed of it, so
      that what is proved holds of the case mapping of Python, whatever the
      alphabet.
    - Effects.  Methods are computations in a state-and-exception monad
      over the account record: a raised exception carries the state the
      account has at the moment of the [raise], so that "nothing is
      mutated on failure" is a statement about the code and not about the
      model.
    - The global [TESTCASE], which [__init__] reads from the environment
      with [int(os.getenv('TESTCASE','0'))], selects one of the seeded
      defects; it is a parameter of the whole development, the integer that
      the conversion gave.  The default value is [0], which selects none. *)

From Stdlib Require Import ZArith QArith Qminmax Lia List Bool String Ascii.
From Stdlib Require Import Floats.
Import ListNotations.

(** A decimal literal stands for the nearest float, as in Python. *)
Set Warnings "-inexact-float".

Open Scope float_scope.

(** ** Python values the class relies on *)

Module Py.

(** Exceptions raised by the class, with their messages. *)
Inductive exn : Type :=
| ValueError (msg : string)
| CheckError (msg : string)
| AssertionError (msg : string).

(** [x <= y], [x < y] and [x == y] on floats. *)
Definition le (x y : float) : bool := x <=? y.
Definition lt (x y : float) : bool := x <? y.
Definition eq (x y : float) : bool := x =? y.

(** [max(x, y)]: the first argument unless the second is strictly larger. *)
Definition max (x y : float) : float := if lt x y then y else x.

(** [sum(iterable)]: the additions from left to right, starting from [0]. *)
Definition sum (l : list float) : float := fold_left PrimFloat.add l 0.

(** [math.isfinite(x)]: neither an infinity nor NaN. *)
Definition isfinite (x : float) : bool := abs x <? infinity.

(** [math.isnan(x)]: NaN is the one float that differs from itself. *)
Definition isnan (x : float) : bool := negb (eq x x).

(** [x in l] on a list of references. *)
Definition contains (x : nat) (l : list nat) : bool :=
  existsb (Nat.eqb x) l.

(** [l.remove(x)]: drops the first occurrence of [x]; [None] stands for
    the [ValueError] Python raises when there is none. *)
Fixpoint remove (x : nat) (l : list nat) : option (list nat) :=
  match l with
  | [] => None
  | y :: l' =>
      if Nat.eqb y x then Some l'
      else match remove x l' with
           | Some r => Some (y :: r)
           | None => None
           end
  end.

(** The case mapping of the letters [A] to [Z]: what [str.lower] does on
    ASCII text, used for the sample data. *)
Definition lower_ascii (c : ascii) : ascii :=
  let n := nat_of_ascii c in
  if (Nat.leb 65 n && Nat.leb n 90)%bool then ascii_of_nat (n + 32) else c.

Fixpoint ascii_lower (s : string) : string :=
  match s with
  | EmptyString => EmptyString
  | String c s' => String (lower_ascii c) (ascii_lower s')
  end.

(** Truth value of an optional string: [None] and [''] are false. *)
Definition truthy (s : option string) : bool :=
  match s with
  | Some (String _ _) => true
  | _ => false
  end.

(** The text of an optional string inside an f-string. *)
Definition str (s : option string) : string :=
  match s with
  | Some t => t
  | None => "None"
  end.

End Py.

(** ** Money and checks *)

(** Modelled from the spec: the module [money] is not part of the sources.
    [Money] is an immutable value with a non-negative amount; constructing
    one from a negative amount fails. *)
Record Money : Type := mkMoney { money_value : float }.

(** Modelled from the spec: the module [check] is not part of the sources.
    A [Check] is a [Money] with a payee (possibly empty or absent) and a
    check number; checks are told apart by object identity. *)
Record Check : Type := mkCheck {
  check_value : float;
  payee : option string;
  check_number : string
}.

(** A reference to a check object. *)
Definition ref : Type := nat.

(** The argument of [deposit]: plain money, or (a reference to) a check;
    [isinstance(money, Check)] is the case distinction.  Other Python
    objects, on which [money.value] raises [AttributeError], are not
    arguments of the model. *)
Inductive deposit_arg : Type :=
| Cash (m : Money)
| ACheck (r : ref).

(** ** The seeded defects *)

Definition BUG_CANT_WITHDRAW_AVAILABLE : Z := 1.
Definition BUG_WITHDRAW_FAILS_SILENTLY : Z := 2.
Definition BUG_DEPOSIT_ZERO : Z := 3.
Definition BUG_CLEAR_ANY_CHECK : Z := 4.
Definition BUG_DUPLICATE_CHECK : Z := 5.
Definition BUG_DEPOSIT_ANY_PAYEE : Z := 6.
Definition BUG_BALANCE_EXCLUDES_HOLDS : Z := 7.
Definition NO_DEFECTS : Z := 8.
Definition BUG_AVAILABLE_BALANCE : Z := 9.
Definition BUG_MINIMUM_IS_IGNORED : Z := 10.

(** ** The account *)

(** The private attributes of a [BankAccount]. *)
Record BankAccount : Type := mkAccount {
  __name : string;
  __balance : float;
  __min_balance : float;
  __pending_checks : list ref;
  __deposited_checks : list ref
}.

(** Outcome of a method call: a result or a raised exception. *)
Inductive outcome (A : Type) : Type :=
| Ok (a : A)
| Raise (e : Py.exn).
Arguments Ok {A} a.
Arguments Raise {A} e.

(** A method: from the account before the call to the outcome and the
    account after it. *)
Definition M (A : Type) : Type := BankAccount -> outcome A * BankAccount.

Definition ret {A} (a : A) : M A := fun s => (Ok a, s).

Definition bind {A B} (m : M A) (k : A -> M B) : M B :=
  fun s =>
    match m s with
    | (Ok a, s') => k a s'
    | (Raise e, s') => (Raise e, s')
    end.

Definition raise {A} (e : Py.exn) : M A := fun s => (Raise e, s).

Definition get {A} (field : BankAccount -> A) : M A := fun s => (Ok (field s), s).

Definition set_balance (b : float) : M unit :=
  fun s => (Ok tt, mkAccount (__name s) b (__min_balance s)
                             (__pending_checks s) (__deposited_checks s)).

Definition set_pending_checks (l : list ref) : M unit :=
  fun s => (Ok tt, mkAccount (__name s) (__balance s) (__min_balance s)
                             l (__deposited_checks s)).

Definition set_deposited_checks (l : list ref) : M unit :=
  fun s => (Ok tt, mkAccount (__name s) (__balance s) (__min_balance s)
                             (__pending_checks s) l).

(** [when c m]: an [if c: m] statement without [else]. *)
Definition when (c : bool) (m : M unit) : M unit := if c then m else ret tt.

Declare Scope py_scope.
Delimit Scope py_scope with py.
Notation "x <- m ;; k" := (bind m (fun x => k))
  (at level 100, m at next level, right associativity) : py_scope.
Notation "m ;; k" := (bind m (fun _ => k))
  (at level 100, right associativity) : py_scope.
Open Scope py_scope.

(** Modelled from the spec: the constructor of [Money], which fails on a
    negative amount. *)
Definition Money_new (amount : float) : M Money :=
  if Py.lt amount 0 then raise (Py.ValueError "Money amount must not be negative")
  else ret (mkMoney amount).

Section Account.

(** The value of the environment variable [TESTCASE]. *)
Variable TESTCASE : Z.

(** The check objects. *)
Variable heap : ref -> Check.

(** [str.lower] *)
Variable lower : string -> string.

Definition bug (index : Z) : bool := Z.eqb index TESTCASE.

(** [money.value] *)
Definition value (money : deposit_arg) : float :=
  match money with
  | Cash m => money_value m
  | ACheck r => check_value (heap r)
  end.

(** [BankAccount(name, min_balance)], for a float [min_balance], on which
    [float(min_balance)] is the identity.  The assertion fails for a
    negative minimum and for NaN.  The last statement of [__init__], which
    sets the global [TESTCASE] from the environment, is not part of this
    function: its result is the parameter [TESTCASE], and a text of the
    variable that [int] refuses, for which the constructor raises
    [ValueError], is outside the model. *)
Definition new_account (name : string) (min_balance : float) : outcome BankAccount :=
  if Py.le 0 min_balance then Ok (mkAccount name 0 min_balance [] [])
  else Raise (Py.AssertionError "min balance parameter must not be negative").

Definition account_name : M string := get __name.

Definition min_balance : M float := get __min_balance.

Definition available : M float :=
  pending <- get __pending_checks ;;
  let sum_holds := Py.sum (map (fun check => check_value (heap check)) pending) in
  avail <-
    (if bug BUG_AVAILABLE_BALANCE then
       bal <- get __balance ;; minb <- min_balance ;;
       ret (bal - minb - sum_holds)
     else if bug BUG_MINIMUM_IS_IGNORED then
       bal <- get __balance ;;
       ret (bal - sum_holds)
     else
       bal <- get __balance ;; minb <- min_balance ;;
       ret (bal - Py.max minb sum_holds)) ;;
  ret (if Py.lt 0 avail then avail else 0).

Definition balance : M float :=
  hold_amount <-
    (if bug BUG_BALANCE_EXCLUDES_HOLDS then
       pending <- get __pending_checks ;;
       ret (Py.sum (map (fun chk => check_value (heap chk)) pending))
     else ret 0) ;;
  bal <- get __balance ;;
  ret (bal - hold_amount).

Definition clear_check (check : ref) : M unit :=
  pending <- get __pending_checks ;;
  if Py.contains check pending then
    match Py.remove check pending with
    | Some pending' => set_pending_checks pending'
    | None => raise (Py.ValueError "list.remove(x): x not in list")
    end
  else if negb (bug BUG_CLEAR_ANY_CHECK) then
    raise (Py.CheckError
             ("Check " ++ check_number (heap check) ++ " is not an uncleared check"))
  else ret tt.

Definition deposit (money : deposit_arg) : M unit :=
  when (Py.le (value money) 0)
    (if (Py.eq (value money) 0 && bug BUG_DEPOSIT_ZERO)%bool then ret tt
     else raise (Py.ValueError "Value to deposit must be positive.")) ;;
  match money with
  | ACheck check =>
      name <- account_name ;;
      when (Py.truthy (payee (heap check))
            && negb (String.eqb (lower (Py.str (payee (heap check))))
                                (lower name)))%bool
        (when (negb (bug BUG_DEPOSIT_ANY_PAYEE))
           (raise (Py.CheckError
                     ("Check payee " ++ Py.str (payee (heap check))
                      ++ " is not account owner")))) ;;
      deposited <- get __deposited_checks ;;
      when (Py.contains check deposited)
        (when (negb (bug BUG_DUPLICATE_CHECK))
           (raise (Py.CheckError "Check already deposited"))) ;;
      pending <- get __pending_checks ;;
      set_pending_checks (pending ++ [check]) ;;
      deposited <- get __deposited_checks ;;
      set_deposited_checks (deposited ++ [check])
  | Cash _ => ret tt
  end ;;
  bal <- get __balance ;;
  set_balance (bal + value money).

(** [withdraw] returns a [Money], or [None] under one of the defects. *)
Definition withdraw (amount : float) : M (option Money) :=
  when (Py.le amount 0)
    (raise (Py.ValueError "Amount to withdraw must be positive")) ;;
  avail <- available ;;
  if Py.lt avail amount then
    if bug BUG_WITHDRAW_FAILS_SILENTLY then ret None
    else raise (Py.ValueError "Amount exceeds available balance")
  else
    avail <- available ;;
    when (Py.eq amount avail && bug BUG_CANT_WITHDRAW_AVAILABLE)%bool
      (raise (Py.ValueError "Amount exceeds available balance")) ;;
    money <- Money_new amount ;;
    bal <- get __balance ;;
    set_balance (bal - amount) ;;
    ret (Some money).

End Account.

Arguments bug TESTCASE index /.

(** ** Running methods *)

(** The account after a call, and the outcome of the call. *)
Definition state_after {A} (m : M A) (s : BankAccount) : BankAccount := snd (m s).
Definition outcome_of {A} (m : M A) (s : BankAccount) : outcome A := fst (m s).

(** The operations that change an account. *)
Inductive op : Type :=
| Deposit (money : deposit_arg)
| ClearCheck (check : ref)
| Withdraw (amount : float).

Definition step (TESTCASE : Z) (heap : ref -> Check) (lower : string -> string)
           (s : BankAccount) (o : op) : BankAccount :=
  match o with
  | Deposit money => state_after (deposit TESTCASE heap lower money) s
  | ClearCheck check => state_after (clear_check TESTCASE heap check) s
  | Withdraw amount => state_after (withdraw TESTCASE heap amount) s
  end.

Definition run (TESTCASE : Z) (heap : ref -> Check) (lower : string -> string)
           (s : BankAccount) (ops : list op) : BankAccount :=
  fold_left (step TESTCASE heap lower) ops s.

(** The accounts a program can hold: constructed by [new_account], then
    changed by any calls of the three mutators, failed calls included. *)
Inductive reachable (TESTCASE : Z) (heap : ref -> Check) (lower : string -> string)
  : BankAccount -> Prop :=
| reach_new : forall name minb s,
    new_account name minb = Ok s -> reachable TESTCASE heap lower s
| reach_step : forall s o,
    reachable TESTCASE heap lower s ->
    reachable TESTCASE heap lower (step TESTCASE heap lower s o).

(** ** The quantities of the specification *)

(** The values of the checks in [pending_checks], in the order of the list. *)
Definition pending_values (heap : ref -> Check) (s : BankAccount) : list float :=
  map (fun r => check_value (heap r)) (__pending_checks s).

(** [hold_amount = max(minimum_balance, sum of the pending checks)], in
    floating point. *)
Definition hold_amount (heap : ref -> Check) (s : BankAccount) : float :=
  Py.max (__min_balance s) (Py.sum (pending_values heap s)).

(** [max(0, total_balance - hold_amount)], in floating point. *)
Definition available_spec (heap : ref -> Check) (s : BankAccount) : float :=
  Py.max 0 (__balance s - hold_amount heap s).

(** The rational number a float stands for ([0] for the infinities and
    NaN, which stand for none). *)
Definition exact (x : float) : Q :=
  match Prim2SF x with
  | S754_finite s m e => (inject_Z (cond_Zopp s (Zpos m)) * Qpower 2 e)%Q
  | _ => 0%Q
  end.


(** ** Derived notions used in the statements *)

(** The number [available] returns, and the one [balance] returns. *)
Definition available_value (TESTCASE : Z) (heap : ref -> Check) (s : BankAccount)
  : float :=
  match outcome_of (available TESTCASE heap) s with
  | Ok a => a
  | Raise _ => 0
  end.

Definition balance_value (TESTCASE : Z) (heap : ref -> Check) (s : BankAccount)
  : float :=
  match outcome_of (balance TESTCASE heap) s with
  | Ok b => b
  | Raise _ => 0
  end.

(** What [available] computes before the clamp, for each selection. *)
Definition unclamped (TESTCASE : Z) (heap : ref -> Check) (s : BankAccount) : float :=
  let sum_holds := Py.sum (map (fun r => check_value (heap r)) (__pending_checks s)) in
  if bug TESTCASE BUG_AVAILABLE_BALANCE then
    __balance s - __min_balance s - sum_holds
  else if bug TESTCASE BUG_MINIMUM_IS_IGNORED then
    __balance s - sum_holds
  else __balance s - Py.max (__min_balance s) sum_holds.

Definition with_balance (s : BankAccount) (b : float) : BankAccount :=
  mkAccount (__name s) b (__min_balance s) (__pending_checks s) (__deposited_checks s).

Definition with_pending (s : BankAccount) (l : list ref) : BankAccount :=
  mkAccount (__name s) (__balance s) (__min_balance s) l (__deposited_checks s).

Definition MSG_NOT_POSITIVE : string := "Amount to withdraw must be positive".
Definition MSG_EXCEEDS : string := "Amount exceeds available balance".
Definition MSG_DEPOSIT_NOT_POSITIVE : string := "Value to deposit must be positive.".
Definition MSG_ALREADY_DEPOSITED : string := "Check already deposited".
Definition MSG_PAYEE (c : Check) : string :=
  "Check payee " ++ Py.str (payee c) ++ " is not account owner".
Definition MSG_NOT_PENDING (c : Check) : string :=
  "Check " ++ check_number c ++ " is not an uncleared check".

(** The first test of [deposit]: is the value refused? *)
Definition value_refused (TESTCASE : Z) (v : float) : bool :=
  (Py.le v 0 && negb (Py.eq v 0 && bug TESTCASE BUG_DEPOSIT_ZERO))%bool.

(** The test on the payee of a check. *)
Definition payee_mismatch (lower : string -> string) (name : string) (c : Check)
  : bool :=
  (Py.truthy (payee c)
   && negb (String.eqb (lower (Py.str (payee c))) (lower name)))%bool.

Definition with_check (s : BankAccount) (check : ref) (v : float) : BankAccount :=
  mkAccount (__name s) (__balance s + v) (__min_balance s)
            (__pending_checks s ++ [check]) (__deposited_checks s ++ [check]).

(** A check passes the tests of [deposit] that come before the search in
    [deposited_checks]. *)
Definition passes (TESTCASE : Z) (heap : ref -> Check) (lower : string -> string)
           (name : string) (r : ref) : Prop :=
  value_refused TESTCASE (check_value (heap r)) = false /\
  (payee_mismatch lower name (heap r)
   && negb (bug TESTCASE BUG_DEPOSIT_ANY_PAYEE))%bool = false.

(** Every check in [deposited_checks] has passed these tests. *)
Definition vetted (TESTCASE : Z) (heap : ref -> Check) (lower : string -> string)
           (s : BankAccount) : Prop :=
  Forall (passes TESTCASE heap lower (__name s)) (__deposited_checks s).

(** Both lists are free of repetitions, and the pending checks are among the
    deposited ones. *)
Record distinct (s : BankAccount) : Prop := mkDistinct {
  distinct_deposited : NoDup (__deposited_checks s);
  distinct_pending : NoDup (__pending_checks s);
  distinct_subset : incl (__pending_checks s) (__deposited_checks s)
}.

(** The calls whose amount is a number: a deposit of a value that is not
    NaN, a withdrawal of a finite amount.  Infinite deposits are among
    them. *)
Definition admissible (heap : ref -> Check) (o : op) : Prop :=
  match o with
  | Deposit money => Py.isnan (value heap money) = false
  | ClearCheck _ => True
  | Withdraw amount => Py.isfinite amount = true
  end.

(** The state of an account whose amounts are numbers that are at least
    [0]: the minimum, [total_balance] and the value of every pending check;
    and the pending checks are among the deposited ones. *)
Record sound (heap : ref -> Check) (s : BankAccount) : Prop := mkSound {
  sound_minimum : Py.le 0 (__min_balance s) = true;
  sound_balance : Py.le 0 (__balance s) = true;
  sound_values :
    Forall (fun r => Py.le 0 (check_value (heap r)) = true) (__pending_checks s);
  sound_subset : incl (__pending_checks s) (__deposited_checks s)
}.

(** The changes a call can make to an account.  A call that raises, or that
    does nothing, leaves the account as it is. *)
Inductive transition (TESTCASE : Z) (heap : ref -> Check) (lower : string -> string)
          (s : BankAccount) : BankAccount -> Prop :=
| tr_same : transition TESTCASE heap lower s s
| tr_cash : forall v,
    value_refused TESTCASE v = false ->
    transition TESTCASE heap lower s (with_balance s (__balance s + v))
| tr_check : forall r,
    passes TESTCASE heap lower (__name s) r ->
    (In r (__deposited_checks s) -> TESTCASE = BUG_DUPLICATE_CHECK) ->
    transition TESTCASE heap lower s (with_check s r (check_value (heap r)))
| tr_clear : forall r l,
    In r (__pending_checks s) ->
    Py.remove r (__pending_checks s) = Some l ->
    transition TESTCASE heap lower s (with_pending s l)
| tr_withdraw : forall a,
    Py.le a 0 = false ->
    Py.lt (available_value TESTCASE heap s) a = false ->
    transition TESTCASE heap lower s (with_balance s (__balance s - a)).

(** ** The rest of the module *)

(** [__str__] *)
Definition __str__ : M string :=
  name <- account_name ;;
  ret (name ++ " Account")%string.

(** The process environment, as [os.getenv] reads it. *)
Definition environ : Type := string -> option string.

(** What [config] returns: the result of the cast, the text it read, or
    [None]. *)
Inductive config_value (A : Type) : Type :=
| Converted (a : A)
| Text (s : string)
| NoValue.
Arguments Converted {A} a.
Arguments Text {A} s.
Arguments NoValue {A}.

(** A string or [None], as a value that [config] returns unchanged. *)
Definition uncast {A} (value : option string) : config_value A :=
  match value with
  | Some s => Text s
  | None => NoValue
  end.

(** [config(envvar, default, cast)].  The cast is a Python callable, which
    may raise; [None] for [cast] is the default "no cast". *)
Definition config {A} (env : environ) (envvar : string) (default : string)
           (cast : option (string -> outcome A)) : outcome (config_value A) :=
  let value := env envvar in
  let value :=
    if (negb (Py.truthy value) && Py.truthy (Some default))%bool
    then Some default else value in
  match cast with
  | Some f =>
      if Py.truthy value then
        match f (Py.str value) with
        | Ok a => Ok (Converted a)
        | Raise e => Raise e
        end
      else Ok (uncast value)
  | None => Ok (uncast value)
  end.

(** ** Derived notions for the whole account *)

(** None of the seeded defects is selected. *)
Definition defect_free (TESTCASE : Z) : Prop :=
  TESTCASE <> BUG_CANT_WITHDRAW_AVAILABLE /\
  TESTCASE <> BUG_WITHDRAW_FAILS_SILENTLY /\
  TESTCASE <> BUG_DEPOSIT_ZERO /\
  TESTCASE <> BUG_CLEAR_ANY_CHECK /\
  TESTCASE <> BUG_DUPLICATE_CHECK /\
  TESTCASE <> BUG_DEPOSIT_ANY_PAYEE /\
  TESTCASE <> BUG_BALANCE_EXCLUDES_HOLDS /\
  TESTCASE <> BUG_AVAILABLE_BALANCE /\
  TESTCASE <> BUG_MINIMUM_IS_IGNORED.

(** The checks that a sequence of calls records: those of the calls of
    [deposit] with a check that return, in the order of the calls. *)
Fixpoint recorded (TESTCASE : Z) (heap : ref -> Check) (lower : string -> string)
         (s : BankAccount) (ops : list op) : list ref :=
  match ops with
  | [] => []
  | o :: ops' =>
      match o with
      | Deposit (ACheck r) =>
          match outcome_of (deposit TESTCASE heap lower (ACheck r)) s with
          | Ok _ => [r]
          | Raise _ => []
          end
      | _ => []
      end ++ recorded TESTCASE heap lower (step TESTCASE heap lower s o) ops'
  end.

(** A movement of money on the account. *)
Inductive movement : Type :=
| Credit (v : float)
| Debit (a : float).

(** The movement a call makes: the value of a deposit that returned, the
    amount of the [Money] that a withdrawal returned; none for the calls
    that raised, for a withdrawal that returned [None] and for
    [clear_check]. *)
Definition movement_of (TESTCASE : Z) (heap : ref -> Check) (lower : string -> string)
           (s : BankAccount) (o : op) : option movement :=
  match o with
  | Deposit money =>
      match outcome_of (deposit TESTCASE heap lower money) s with
      | Ok _ => Some (Credit (value heap money))
      | Raise _ => None
      end
  | ClearCheck _ => None
  | Withdraw amount =>
      match outcome_of (withdraw TESTCASE heap amount) s with
      | Ok (Some m) => Some (Debit (money_value m))
      | _ => None
      end
  end.

(** A balance after a movement, in floating point. *)
Definition post (b : float) (m : option movement) : float :=
  match m with
  | Some (Credit v) => b + v
  | Some (Debit a) => b - a
  | None => b
  end.

(** The balance [b] after the movements of a sequence of calls, posted in
    the order of the calls. *)
Fixpoint ledger (TESTCASE : Z) (heap : ref -> Check) (lower : string -> string)
         (s : BankAccount) (ops : list op) (b : float) : float :=
  match ops with
  | [] => b
  | o :: ops' =>
      ledger TESTCASE heap lower (step TESTCASE heap lower s o) ops'
             (post b (movement_of TESTCASE heap lower s o))
  end.

(** Where a check stands for an account. *)
Inductive check_status : Type :=
| Absent
| Pending
| Cleared.

Definition status (s : BankAccount) (check : ref) : check_status :=
  if Py.contains check (__pending_checks s) then Pending
  else if Py.contains check (__deposited_checks s) then Cleared
  else Absent.

(** The order of the life of a check: absent, then pending, then cleared. *)
Definition stage (c : check_status) : nat :=
  match c with
  | Absent => 0
  | Pending => 1
  | Cleared => 2
  end.

(** ** Sample data *)

(** Four check objects: payable to the owner up to case, payable to
    somebody else, without a payee, and with an empty payee; every other
    reference is a check of value [0]. *)
Definition sample_heap (r : ref) : Check :=
  match r with
  | 0%nat => mkCheck 100 (Some "bob"%string) "1001"
  | 1%nat => mkCheck 100 (Some "Alice"%string) "1002"
  | 2%nat => mkCheck 25 None "1003"
  | 3%nat => mkCheck 40 (Some EmptyString) "1004"
  | _ => mkCheck 0 None "0"
  end.

(** [BankAccount("Bob", 50)] *)
Definition bob_account : BankAccount := mkAccount "Bob" 0 50 [] [].

(** Bob's account after a deposit of 200 in cash. *)
Definition bob_with_cash : BankAccount := mkAccount "Bob" 200 50 [] [].

(** Bob's account after the cash and the check [0]. *)
Definition bob_with_check : BankAccount := mkAccount "Bob" 300 50 [0%nat] [0%nat].

(** Bob's account after the cash, the check [0], and its clearing. *)
Definition bob_cleared : BankAccount := mkAccount "Bob" 300 50 [] [0%nat].

(** [BankAccount("Bob", 0.1)] after a deposit of 1.1 in cash. *)
Definition bob_tenths : BankAccount := mkAccount "Bob" 1.1 0.1 [] [].

(** An account with a balance of 1e16. *)
Definition bob_rich : BankAccount := mkAccount "Bob" 1e16 0 [] [].

(** [BankAccount("Bob")], and what two deposits of 1e308 in cash make of
    it: the sum of the two is beyond the largest float. *)
Definition bob_fresh : BankAccount := mkAccount "Bob" 0 0 [] [].
Definition bob_overflow : BankAccount := mkAccount "Bob" infinity 0 [] [].

(** Check objects worth 0.1 each, without a payee. *)
Definition tenth_heap (r : ref) : Check := mkCheck 0.1 None "2001".

(** A check of 0.1, cash of 0.6, and the withdrawal of the 0.6 that are
    available then. *)
Definition tenth_calls : list op :=
  [Deposit (ACheck 0%nat); Deposit (Cash (mkMoney 0.6)); Withdraw 0.6].

(** The calls of the sample: cash, a check, its clearing, a withdrawal. *)
Definition sample_calls : list op :=
  [Deposit (Cash (mkMoney 200)); Deposit (ACheck 0%nat); ClearCheck 0%nat;
   Withdraw 100].

(** The formula of [available] read in the rational numbers, on the numbers
    the floats of the account stand for. *)
Definition exact_available (heap : ref -> Check) (s : BankAccount) : Q :=
  Qmax 0 (exact (__balance s)
          - Qmax (exact (__min_balance s))
                 (fold_right Qplus 0%Q (map exact (pending_values heap s)))).

(** ** The order of the floats *)

(** The place of a float in the order of the format: the sign class, then
    the exponent, then the mantissa; NaN has none. *)
Definition fkey (x : spec_float) : option (Z * Z * Z) :=
  match x with
  | S754_nan => None
  | S754_infinity true => Some (-2, 0, 0)%Z
  | S754_infinity false => Some (2, 0, 0)%Z
  | S754_zero _ => Some (0, 0, 0)%Z
  | S754_finite false m e => Some (1, e, Zpos m)%Z
  | S754_finite true m e => Some (-1, - e, Zneg m)%Z
  end.

Definition key_lt (a b : Z * Z * Z) : Prop :=
  let '(a1, a2, a3) := a in
  let '(b1, b2, b3) := b in
  (a1 < b1 \/ (a1 = b1 /\ (a2 < b2 \/ (a2 = b2 /\ a3 < b3))))%Z.

Definition key_eq (a b : Z * Z * Z) : Prop :=
  let '(a1, a2, a3) := a in
  let '(b1, b2, b3) := b in
  (a1 = b1 /\ a2 = b2 /\ a3 = b3)%Z.

(** [x < y], [x == y] and [x <= y] on floats, as propositions. *)
Definition flt (x y : float) : Prop :=
  match fkey (Prim2SF x), fkey (Prim2SF y) with
  | Some a, Some b => key_lt a b
  | _, _ => False
  end.

Definition feq (x y : float) : Prop :=
  match fkey (Prim2SF x), fkey (Prim2SF y) with
  | Some a, Some b => key_eq a b
  | _, _ => False
  end.

Definition fle (x y : float) : Prop := flt x y \/ feq x y.

(** The floats that are at least [0]: the zeros, the positive numbers and
    the positive infinity. *)
Definition sf_nonneg (X : spec_float) : Prop :=
  match X with
  | S754_zero _ | S754_infinity false | S754_finite false _ _ => True
  | _ => False
  end.

(** The floats above [0]. *)
Definition sf_pos (X : spec_float) : Prop :=
  match X with
  | S754_infinity false | S754_finite false _ _ => True
  | _ => False
  end.

(** The zeros and the finite numbers. *)
Definition sf_finite (X : spec_float) : Prop :=
  match X with
  | S754_zero _ | S754_finite _ _ _ => True
  | _ => False
  end.

(** [X <= Y] *)
Definition sf_le (X Y : spec_float) : Prop :=
  match fkey X, fkey Y with
  | Some a, Some b => key_lt a b \/ key_eq a b
  | _, _ => False
  end.

(** * Proofs *)

(** ** The comparisons of floats *)

Lemma SFcompare_Lt (X Y : spec_float) :
  SFcompare X Y = Some Lt <->
  match fkey X, fkey Y with
  | Some a, Some b => key_lt a b
  | _, _ => False
  end.
Proof.
  destruct X as [[]|[]| |[] m1 e1], Y as [[]|[]| |[] m2 e2]; simpl;
    try (split; [intro H; try discriminate H; lia | intro H; try reflexivity; try tauto; lia]).
  - change (Pos.compare_cont Eq m1 m2) with (Pos.compare m1 m2).
    destruct (Z.compare_spec e1 e2); destruct (Pos.compare_spec m1 m2); simpl;
      (split; [intro K; try discriminate K; lia | intro K; try reflexivity; lia]).
  - change (Pos.compare_cont Eq m1 m2) with (Pos.compare m1 m2).
    destruct (Z.compare_spec e1 e2); destruct (Pos.compare_spec m1 m2); simpl;
      (split; [intro K; try discriminate K; lia | intro K; try reflexivity; lia]).
Qed.

Lemma SFcompare_Eq (X Y : spec_float) :
  SFcompare X Y = Some Eq <->
  match fkey X, fkey Y with
  | Some a, Some b => key_eq a b
  | _, _ => False
  end.
Proof.
  destruct X as [[]|[]| |[] m1 e1], Y as [[]|[]| |[] m2 e2]; simpl;
    try (split; [intro H; try discriminate H; lia | intro H; try reflexivity; try tauto; lia]).
  - change (Pos.compare_cont Eq m1 m2) with (Pos.compare m1 m2).
    destruct (Z.compare_spec e1 e2); destruct (Pos.compare_spec m1 m2); simpl;
      (split; [intro K; try discriminate K; lia | intro K; try reflexivity; lia]).
  - change (Pos.compare_cont Eq m1 m2) with (Pos.compare m1 m2).
    destruct (Z.compare_spec e1 e2); destruct (Pos.compare_spec m1 m2); simpl;
      (split; [intro K; try discriminate K; lia | intro K; try reflexivity; lia]).
Qed.

Lemma lt_spec (x y : float) : Py.lt x y = true <-> flt x y.
Proof.
  unfold Py.lt, flt. rewrite ltb_spec, <- SFcompare_Lt. unfold SFltb.
  destruct (SFcompare (Prim2SF x) (Prim2SF y)) as [[]|]; split; congruence.
Qed.

Lemma eq_spec (x y : float) : Py.eq x y = true <-> feq x y.
Proof.
  unfold Py.eq, feq. rewrite eqb_spec, <- SFcompare_Eq. unfold SFeqb.
  destruct (SFcompare (Prim2SF x) (Prim2SF y)) as [[]|]; split; congruence.
Qed.

Lemma le_spec (x y : float) : Py.le x y = true <-> fle x y.
Proof.
  unfold Py.le, fle, flt, feq. rewrite leb_spec, <- SFcompare_Lt, <- SFcompare_Eq.
  unfold SFleb.
  destruct (SFcompare (Prim2SF x) (Prim2SF y)) as [[]|]; split;
    try congruence; try tauto; intros [H|H]; congruence.
Qed.

Lemma lt_false (x y : float) : Py.lt x y = false <-> ~ flt x y.
Proof. rewrite <- lt_spec. destruct (Py.lt x y); split; congruence. Qed.

Lemma le_false (x y : float) : Py.le x y = false <-> ~ fle x y.
Proof. rewrite <- le_spec. destruct (Py.le x y); split; congruence. Qed.

Lemma eq_false (x y : float) : Py.eq x y = false <-> ~ feq x y.
Proof. rewrite <- eq_spec. destruct (Py.eq x y); split; congruence. Qed.

(** Turns the comparisons of a goal into statements about keys and decides
    them. *)
Ltac float_order :=
  rewrite ?lt_spec, ?le_spec, ?eq_spec, ?lt_false, ?le_false, ?eq_false in *;
  unfold fle, flt, feq in *;
  change (fkey (Prim2SF 0)) with (Some (0, 0, 0)%Z) in *;
  repeat match goal with
         | |- context [fkey (Prim2SF ?x)] =>
             destruct (fkey (Prim2SF x)) as [[[? ?] ?]|]
         | H : context [fkey (Prim2SF ?x)] |- _ =>
             destruct (fkey (Prim2SF x)) as [[[? ?] ?]|]
         end;
  unfold key_lt, key_eq in *;
  try tauto; try lia.

Lemma key_zero : fkey (Prim2SF 0) = Some (0, 0, 0)%Z.
Proof. reflexivity. Qed.

Lemma lt_le (x y : float) : Py.lt x y = true -> Py.le x y = true.
Proof. intro H. float_order. Qed.

Lemma lt_not_le (x y : float) : Py.lt x y = true -> Py.le y x = false.
Proof. intro H. float_order. Qed.

Lemma lt_not_eq (x y : float) : Py.lt x y = true -> Py.eq x y = false.
Proof. intro H. float_order. Qed.

Lemma lt_not_lt (x y : float) : Py.lt x y = true -> Py.lt y x = false.
Proof. intro H. float_order. Qed.

Lemma eq_not_lt (x y : float) : Py.eq x y = true -> Py.lt y x = false.
Proof. intro H. float_order. Qed.

Lemma lt_trans (x y z : float) :
  Py.lt x y = true -> Py.lt y z = true -> Py.lt x z = true.
Proof. intros H1 H2. float_order. Qed.

Lemma le_trans (x y z : float) :
  Py.le x y = true -> Py.le y z = true -> Py.le x z = true.
Proof. intros H1 H2. float_order. Qed.

Lemma lt_le_trans (x y z : float) :
  Py.lt x y = true -> Py.le y z = true -> Py.lt x z = true.
Proof. intros H1 H2. float_order. Qed.

Lemma le_lt_trans (x y z : float) :
  Py.le x y = true -> Py.lt y z = true -> Py.lt x z = true.
Proof. intros H1 H2. float_order. Qed.

Lemma le_zero_zero : Py.le 0 0 = true.
Proof. reflexivity. Qed.

(** ** Facts about the Python operations *)

Lemma max_cases (x y : float) :
  (Py.lt x y = true /\ Py.max x y = y) \/ (Py.lt x y = false /\ Py.max x y = x).
Proof.
  unfold Py.max. destruct (Py.lt x y); auto.
Qed.

(** [x - 0] is [x], for every float. *)
Lemma sub_zero (x : float) : x - 0 = x.
Proof.
  apply Prim2SF_inj. rewrite sub_spec.
  change (Prim2SF 0) with (S754_zero false).
  destruct (Prim2SF x) as [[]|[]| |[] m e]; reflexivity.
Qed.

Lemma contains_In (x : ref) (l : list ref) : Py.contains x l = true <-> In x l.
Proof.
  unfold Py.contains. rewrite existsb_exists. split.
  - intros [y [Hy E]]. apply Nat.eqb_eq in E. subst. exact Hy.
  - intro H. exists x. split; [exact H | apply Nat.eqb_refl].
Qed.

Lemma contains_not_In (x : ref) (l : list ref) : Py.contains x l = false <-> ~ In x l.
Proof.
  rewrite <- contains_In. destruct (Py.contains x l); split; congruence.
Qed.

Lemma remove_In (x : ref) (l : list ref) :
  In x l -> exists l', Py.remove x l = Some l'.
Proof.
  induction l as [|y l IH]; simpl; [tauto|].
  intros [E|H].
  - subst. rewrite Nat.eqb_refl. eauto.
  - destruct (Nat.eqb y x); [eauto|].
    destruct (IH H) as [l' ->]. eauto.
Qed.

Lemma remove_subset (x : ref) (l l' : list ref) :
  Py.remove x l = Some l' -> incl l' l.
Proof.
  revert l'. induction l as [|y l IH]; simpl; intros l' H; [discriminate|].
  destruct (Nat.eqb y x).
  - inversion H; subst. apply incl_tl, incl_refl.
  - destruct (Py.remove x l) as [r|]; [|discriminate].
    inversion H; subst. intros z [E|Hz]; [left; exact E|].
    right. apply (IH r eq_refl). exact Hz.
Qed.

Lemma remove_other (x z : ref) (l l' : list ref) :
  Py.remove x l = Some l' -> z <> x -> In z l -> In z l'.
Proof.
  revert l'. induction l as [|y l IH]; simpl; intros l' H N Hz; [discriminate|].
  destruct (Nat.eqb y x) eqn:E.
  - inversion H; subst. apply Nat.eqb_eq in E. destruct Hz; [congruence|assumption].
  - destruct (Py.remove x l) as [r|]; [|discriminate].
    inversion H; subst. destruct Hz as [->|Hz]; [left; reflexivity|].
    right. apply (IH r eq_refl N Hz).
Qed.

Lemma remove_NoDup (x : ref) (l l' : list ref) :
  Py.remove x l = Some l' -> NoDup l -> NoDup l' /\ ~ In x l'.
Proof.
  revert l'. induction l as [|y l IH]; simpl; intros l' H ND; [discriminate|].
  inversion ND as [|? ? Hy NDl]; subst.
  destruct (Nat.eqb y x) eqn:E.
  - inversion H; subst. apply Nat.eqb_eq in E. subst. split; assumption.
  - destruct (Py.remove x l) as [r|] eqn:R; [|discriminate].
    inversion H; subst. destruct (IH r eq_refl NDl) as [NDr Nx].
    apply Nat.eqb_neq in E. split.
    + constructor; [|exact NDr]. intro Hr. apply Hy.
      apply (remove_subset x l r R). exact Hr.
    + intros [Eq|Hr]; [congruence|tauto].
Qed.

(** ** The queries *)

(** Unfolds the monad in a goal. *)
Ltac run_monad :=
  cbv [bind ret raise get when set_balance set_pending_checks
       set_deposited_checks account_name min_balance state_after outcome_of];
  cbn [fst snd __name __balance __min_balance __pending_checks __deposited_checks].

Lemma available_run (TESTCASE : Z) (heap : ref -> Check) (s : BankAccount) :
  available TESTCASE heap s = (Ok (available_value TESTCASE heap s), s).
Proof.
  unfold available_value, available. run_monad.
  destruct (bug TESTCASE BUG_AVAILABLE_BALANCE);
    [|destruct (bug TESTCASE BUG_MINIMUM_IS_IGNORED)]; reflexivity.
Qed.

Lemma balance_run (TESTCASE : Z) (heap : ref -> Check) (s : BankAccount) :
  balance TESTCASE heap s = (Ok (balance_value TESTCASE heap s), s).
Proof.
  unfold balance_value, balance. run_monad.
  destruct (bug TESTCASE BUG_BALANCE_EXCLUDES_HOLDS); reflexivity.
Qed.

(** The clamp at the end of [available]. *)
Lemma clamp_cases (avail : float) :
  (Py.lt 0 avail = true /\ (if Py.lt 0 avail then avail else 0) = avail) \/
  (Py.lt 0 avail = false /\ (if Py.lt 0 avail then avail else 0) = 0).
Proof.
  destruct (Py.lt 0 avail); auto.
Qed.

Lemma available_value_unclamped (TESTCASE : Z) (heap : ref -> Check) (s : BankAccount) :
  available_value TESTCASE heap s
  = if Py.lt 0 (unclamped TESTCASE heap s) then unclamped TESTCASE heap s else 0.
Proof.
  unfold available_value, available, unclamped. run_monad.
  destruct (bug TESTCASE BUG_AVAILABLE_BALANCE);
    [|destruct (bug TESTCASE BUG_MINIMUM_IS_IGNORED)]; reflexivity.
Qed.

Lemma available_value_nonneg (TESTCASE : Z) (heap : ref -> Check) (s : BankAccount) :
  Py.le 0 (available_value TESTCASE heap s) = true.
Proof.
  rewrite available_value_unclamped.
  destruct (clamp_cases (unclamped TESTCASE heap s)) as [[H ->]|[H ->]].
  - apply lt_le, H.
  - apply le_zero_zero.
Qed.

Lemma bug_off (TESTCASE index : Z) : TESTCASE <> index -> bug TESTCASE index = false.
Proof.
  intro N. unfold bug. apply Z.eqb_neq. congruence.
Qed.

Lemma bug_on (TESTCASE index : Z) : bug TESTCASE index = true -> TESTCASE = index.
Proof.
  unfold bug. intro H. apply Z.eqb_eq in H. congruence.
Qed.



(** ** The mutators, as equations *)

Lemma withdraw_eq (TESTCASE : Z) (heap : ref -> Check) (amount : float) (s : BankAccount) :
  withdraw TESTCASE heap amount s =
  if Py.le amount 0 then (Raise (Py.ValueError MSG_NOT_POSITIVE), s)
  else if Py.lt (available_value TESTCASE heap s) amount then
    if bug TESTCASE BUG_WITHDRAW_FAILS_SILENTLY then (Ok None, s)
    else (Raise (Py.ValueError MSG_EXCEEDS), s)
  else if (Py.eq amount (available_value TESTCASE heap s)
           && bug TESTCASE BUG_CANT_WITHDRAW_AVAILABLE)%bool then
    (Raise (Py.ValueError MSG_EXCEEDS), s)
  else (Ok (Some (mkMoney amount)), with_balance s (__balance s - amount)).
Proof.
  unfold withdraw. run_monad.
  destruct (Py.le amount 0) eqn:L; [reflexivity|].
  rewrite available_run.
  destruct (Py.lt (available_value TESTCASE heap s) amount).
  - destruct (bug TESTCASE BUG_WITHDRAW_FAILS_SILENTLY); reflexivity.
  - rewrite available_run.
    destruct (Py.eq amount (available_value TESTCASE heap s)
              && bug TESTCASE BUG_CANT_WITHDRAW_AVAILABLE)%bool; [reflexivity|].
    unfold Money_new.
    assert (N : Py.lt amount 0 = false).
    { destruct (Py.lt amount 0) eqn:N; [|reflexivity].
      apply lt_le in N. congruence. }
    rewrite N. reflexivity.
Qed.

Lemma clear_check_eq (TESTCASE : Z) (heap : ref -> Check) (check : ref) (s : BankAccount) :
  clear_check TESTCASE heap check s =
  if Py.contains check (__pending_checks s) then
    match Py.remove check (__pending_checks s) with
    | Some l => (Ok tt, with_pending s l)
    | None => (Raise (Py.ValueError "list.remove(x): x not in list"), s)
    end
  else if bug TESTCASE BUG_CLEAR_ANY_CHECK then (Ok tt, s)
  else (Raise (Py.CheckError (MSG_NOT_PENDING (heap check))), s).
Proof.
  unfold clear_check. run_monad.
  destruct (Py.contains check (__pending_checks s)).
  - destruct (Py.remove check (__pending_checks s)); reflexivity.
  - destruct (bug TESTCASE BUG_CLEAR_ANY_CHECK); reflexivity.
Qed.

Lemma deposit_cash_eq (TESTCASE : Z) (heap : ref -> Check) (lower : string -> string)
      (m : Money) (s : BankAccount) :
  deposit TESTCASE heap lower (Cash m) s =
  if value_refused TESTCASE (money_value m) then
    (Raise (Py.ValueError MSG_DEPOSIT_NOT_POSITIVE), s)
  else (Ok tt, with_balance s (__balance s + money_value m)).
Proof.
  unfold deposit, value_refused. run_monad. cbn [value].
  destruct (Py.le (money_value m) 0); [|reflexivity].
  destruct (Py.eq (money_value m) 0 && bug TESTCASE BUG_DEPOSIT_ZERO)%bool; reflexivity.
Qed.

Lemma deposit_check_eq (TESTCASE : Z) (heap : ref -> Check) (lower : string -> string)
      (check : ref) (s : BankAccount) :
  deposit TESTCASE heap lower (ACheck check) s =
  if value_refused TESTCASE (check_value (heap check)) then
    (Raise (Py.ValueError MSG_DEPOSIT_NOT_POSITIVE), s)
  else if (payee_mismatch lower (__name s) (heap check)
           && negb (bug TESTCASE BUG_DEPOSIT_ANY_PAYEE))%bool then
    (Raise (Py.CheckError (MSG_PAYEE (heap check))), s)
  else if (Py.contains check (__deposited_checks s)
           && negb (bug TESTCASE BUG_DUPLICATE_CHECK))%bool then
    (Raise (Py.CheckError MSG_ALREADY_DEPOSITED), s)
  else (Ok tt, with_check s check (check_value (heap check))).
Proof.
  unfold deposit, value_refused, payee_mismatch. run_monad. cbn [value].
  destruct (Py.le (check_value (heap check)) 0);
    [destruct (Py.eq (check_value (heap check)) 0 && bug TESTCASE BUG_DEPOSIT_ZERO)%bool|];
    cbn [andb negb]; try reflexivity.
  all: destruct (Py.truthy (payee (heap check))
              && negb (String.eqb (lower (Py.str (payee (heap check))))
                                  (lower (__name s))))%bool;
    destruct (bug TESTCASE BUG_DEPOSIT_ANY_PAYEE); cbn [andb negb]; try reflexivity.
  all: destruct (Py.contains check (__deposited_checks s));
    destruct (bug TESTCASE BUG_DUPLICATE_CHECK); reflexivity.
Qed.

(** ** Calls as transitions *)

Lemma withdraw_transition (TESTCASE : Z) (heap : ref -> Check) (lower : string -> string)
      (amount : float) (s : BankAccount) :
  transition TESTCASE heap lower s (state_after (withdraw TESTCASE heap amount) s).
Proof.
  unfold state_after. rewrite withdraw_eq.
  destruct (Py.le amount 0) eqn:P; [apply tr_same|].
  destruct (Py.lt (available_value TESTCASE heap s) amount) eqn:L.
  { destruct (bug TESTCASE BUG_WITHDRAW_FAILS_SILENTLY); apply tr_same. }
  destruct (Py.eq amount (available_value TESTCASE heap s)
            && bug TESTCASE BUG_CANT_WITHDRAW_AVAILABLE)%bool; [apply tr_same|].
  apply tr_withdraw; assumption.
Qed.

Lemma clear_check_transition (TESTCASE : Z) (heap : ref -> Check)
      (lower : string -> string) (check : ref) (s : BankAccount) :
  transition TESTCASE heap lower s (state_after (clear_check TESTCASE heap check) s).
Proof.
  unfold state_after. rewrite clear_check_eq.
  destruct (Py.contains check (__pending_checks s)) eqn:C.
  - destruct (Py.remove check (__pending_checks s)) as [l|] eqn:R; [|apply tr_same].
    apply (tr_clear TESTCASE heap lower s check l); [apply contains_In, C | exact R].
  - destruct (bug TESTCASE BUG_CLEAR_ANY_CHECK); apply tr_same.
Qed.

Lemma deposit_transition (TESTCASE : Z) (heap : ref -> Check) (lower : string -> string)
      (money : deposit_arg) (s : BankAccount) :
  transition TESTCASE heap lower s (state_after (deposit TESTCASE heap lower money) s).
Proof.
  unfold state_after. destruct money as [m|check].
  - rewrite deposit_cash_eq.
    destruct (value_refused TESTCASE (money_value m)) eqn:R; [apply tr_same|].
    apply tr_cash, R.
  - rewrite deposit_check_eq.
    destruct (value_refused TESTCASE (check_value (heap check))) eqn:R; [apply tr_same|].
    destruct (payee_mismatch lower (__name s) (heap check)
              && negb (bug TESTCASE BUG_DEPOSIT_ANY_PAYEE))%bool eqn:P; [apply tr_same|].
    destruct (Py.contains check (__deposited_checks s)
              && negb (bug TESTCASE BUG_DUPLICATE_CHECK))%bool eqn:D; [apply tr_same|].
    apply tr_check; [split; assumption|].
    intro I. apply contains_In in I. rewrite I in D. cbn [andb] in D.
    apply negb_false_iff in D. apply bug_on, D.
Qed.

Lemma step_transition (TESTCASE : Z) (heap : ref -> Check) (lower : string -> string)
      (s : BankAccount) (o : op) :
  transition TESTCASE heap lower s (step TESTCASE heap lower s o).
Proof.
  destruct o; simpl;
    [apply deposit_transition | apply clear_check_transition | apply withdraw_transition].
Qed.

(** A property of fresh accounts that every transition preserves holds of
    every reachable account. *)
Lemma reachable_preserved (TESTCASE : Z) (heap : ref -> Check) (lower : string -> string)
      (P : BankAccount -> Prop) :
  (forall name minb s, new_account name minb = Ok s -> P s) ->
  (forall s s', P s -> transition TESTCASE heap lower s s' -> P s') ->
  forall s, reachable TESTCASE heap lower s -> P s.
Proof.
  intros New Step s R. induction R as [name minb s H | s o _ IH].
  - apply (New name minb s H).
  - apply (Step s _ IH), step_transition.
Qed.

Lemma reachable_run (TESTCASE : Z) (heap : ref -> Check) (lower : string -> string)
      (s : BankAccount) (ops : list op) :
  reachable TESTCASE heap lower s ->
  reachable TESTCASE heap lower (run TESTCASE heap lower s ops).
Proof.
  revert s. induction ops as [|o ops IH]; intros s R; simpl.
  - exact R.
  - apply IH. apply reach_step. exact R.
Qed.

Lemma new_account_inv (name : string) (minb : float) (s : BankAccount) :
  new_account name minb = Ok s ->
  s = mkAccount name 0 minb [] [] /\ Py.le 0 minb = true.
Proof.
  unfold new_account. destruct (Py.le 0 minb) eqn:L; [|discriminate].
  intro H. inversion H. split; reflexivity.
Qed.

(** ** Rounding *)

Lemma digits2_size (m : positive) : digits2_pos m = Pos.size m.
Proof.
  induction m as [m IH|m IH|]; simpl; congruence.
Qed.

Lemma digits_upper (m : positive) : (Zpos m < 2 ^ Zpos (digits2_pos m))%Z.
Proof.
  rewrite digits2_size. pose proof (Pos.size_gt m) as H.
  apply Pos2Z.pos_lt_pos in H. rewrite Pos2Z.inj_pow in H. exact H.
Qed.

Lemma digits_lower (m : positive) : (2 ^ Zpos (digits2_pos m) <= 2 * Zpos m)%Z.
Proof.
  rewrite digits2_size. pose proof (Pos.size_le m) as H.
  apply Pos2Z.pos_le_pos in H. rewrite Pos2Z.inj_pow in H. exact H.
Qed.

Lemma iter_xO (m d : positive) : Zpos (Pos.iter xO m d) = (Zpos m * 2 ^ Zpos d)%Z.
Proof.
  induction d as [|d IH] using Pos.peano_ind.
  - simpl. lia.
  - rewrite Pos.iter_succ, Pos2Z.inj_succ, Z.pow_succ_r by lia.
    rewrite Pos2Z.inj_xO, IH. lia.
Qed.

(** Shifting the mantissa to a smaller exponent multiplies it by the power
    of two. *)
Lemma shl_align_spec (m : positive) (e e' : Z) :
  (e' <= e)%Z ->
  Zpos (fst (shl_align m e e')) = (Zpos m * 2 ^ (e - e'))%Z /\
  snd (shl_align m e e') = e'.
Proof.
  intro L. unfold shl_align.
  destruct (e' - e)%Z as [|p|p] eqn:D; try lia.
  - assert (e = e') by lia. subst. rewrite Z.sub_diag. simpl. split; lia.
  - simpl. rewrite iter_xO. replace (e - e')%Z with (Zpos p) by lia. auto.
Qed.

Lemma shl_align_none (m : positive) (e e' : Z) :
  (e <= e')%Z -> shl_align m e e' = (m, e).
Proof.
  intro L. unfold shl_align. destruct (e' - e)%Z eqn:D; try reflexivity. lia.
Qed.

Lemma shr_1_m (r : shr_record) :
  (0 <= shr_m r)%Z -> shr_m (shr_1 r) = (shr_m r / 2)%Z.
Proof.
  destruct r as [m b c]. cbn [shr_m]. intro P.
  destruct m as [|[p|p|]|p]; cbn [shr_1 shr_m]; try lia; try reflexivity.
  - apply Z.div_unique with (r := 1%Z); lia.
  - apply Z.div_unique with (r := 0%Z); lia.
Qed.

Lemma pow2_pos (n : Z) : (0 <= n)%Z -> (0 < 2 ^ n)%Z.
Proof. intro P. apply Z.pow_pos_nonneg; lia. Qed.

Lemma div_pow2_twice (a n k : Z) :
  (0 <= n)%Z -> (0 <= k)%Z -> (a / 2 ^ n / 2 ^ k = a / 2 ^ (n + k))%Z.
Proof.
  intros P1 P2. pose proof (pow2_pos n P1). pose proof (pow2_pos k P2).
  rewrite Z.div_div by lia. rewrite Z.pow_add_r by lia. reflexivity.
Qed.

Lemma iter_shr_1_m (p : positive) (r : shr_record) :
  (0 <= shr_m r)%Z ->
  shr_m (iter_pos shr_1 p r) = (shr_m r / 2 ^ Zpos p)%Z.
Proof.
  revert r. induction p as [p IH|p IH|]; intros r P; simpl iter_pos.
  - assert (P1 : (0 <= shr_m (shr_1 r))%Z)
      by (rewrite shr_1_m by exact P; apply Z.div_pos; lia).
    assert (P2 : (0 <= shr_m (iter_pos shr_1 p (shr_1 r)))%Z)
      by (rewrite IH by exact P1; apply Z.div_pos; [exact P1|]; apply pow2_pos; lia).
    rewrite IH by exact P2. rewrite IH by exact P1. rewrite shr_1_m by exact P.
    change 2%Z with (2 ^ 1)%Z at 1.
    rewrite !div_pow2_twice by lia. f_equal. f_equal. lia.
  - assert (P2 : (0 <= shr_m (iter_pos shr_1 p r))%Z)
      by (rewrite IH by exact P; apply Z.div_pos; [exact P|]; apply pow2_pos; lia).
    rewrite IH by exact P2. rewrite IH by exact P.
    rewrite div_pow2_twice by lia. f_equal. f_equal. lia.
  - rewrite shr_1_m by exact P. reflexivity.
Qed.

Lemma shr_m_record_of_loc (m : Z) (l : location) :
  shr_m (shr_record_of_loc m l) = m.
Proof.
  destruct l as [|[]]; reflexivity.
Qed.

(** The mantissa and the exponent that [shr_fexp] leaves. *)
Lemma shr_fexp_spec (m e : Z) (l : location) :
  (0 <= m)%Z ->
  let n := (fexp prec emax (Zdigits2 m + e) - e)%Z in
  shr_m (fst (shr_fexp prec emax m e l)) = (if (0 <? n)%Z then m / 2 ^ n else m)%Z /\
  snd (shr_fexp prec emax m e l) = (if (0 <? n)%Z then e + n else e)%Z.
Proof.
  intros P n. unfold shr_fexp. fold n. unfold shr.
  destruct n as [|p|p]; simpl.
  - rewrite shr_m_record_of_loc. auto.
  - rewrite iter_shr_1_m by (rewrite shr_m_record_of_loc; exact P).
    rewrite shr_m_record_of_loc. auto.
  - rewrite shr_m_record_of_loc. auto.
Qed.

Lemma round_nearest_even_bounds (m : Z) (l : location) :
  (m <= round_nearest_even m l <= m + 1)%Z.
Proof.
  destruct l as [|[]]; simpl; try lia. destruct (Z.even m); lia.
Qed.

Lemma digits_unique (x : positive) (n : Z) :
  (2 ^ (n - 1) <= Zpos x < 2 ^ n)%Z -> Zpos (digits2_pos x) = n.
Proof.
  intros [L U]. pose proof (digits_upper x) as Du. pose proof (digits_lower x) as Dl.
  set (d := Zpos (digits2_pos x)) in *. assert (Pd : (0 < d)%Z) by (unfold d; lia).
  assert (Pn : (0 < n)%Z).
  { destruct (Z_lt_le_dec 0 n) as [H|H]; [exact H|].
    exfalso. rewrite Z.pow_neg_r in U by lia || (destruct (Z.eq_dec n 0); [subst; simpl in U; lia|lia]).
    lia. }
  destruct (Z_lt_le_dec d n) as [H1|H1].
  - exfalso. assert (2 ^ d <= 2 ^ (n - 1))%Z by (apply Z.pow_le_mono_r; lia).
    assert (2 ^ d = 2 * 2 ^ (d - 1))%Z
      by (rewrite <- Z.pow_succ_r by lia; f_equal; lia).
    assert (2 ^ (d - 1) < 2 ^ d)%Z by (apply Z.pow_lt_mono_r; lia).
    lia.
  - destruct (Z_lt_le_dec n d) as [H2|H2]; [|lia].
    exfalso. assert (2 ^ n <= 2 ^ (d - 1))%Z by (apply Z.pow_le_mono_r; lia).
    assert (2 ^ d = 2 * 2 ^ (d - 1))%Z
      by (rewrite <- Z.pow_succ_r by lia; f_equal; lia).
    lia.
Qed.

(** The sign of a float, for the floats that have one. *)
Lemma binary_round_aux_exact (s : bool) (m : positive) (e : Z) :
  fexp prec emax (Zpos (digits2_pos m) + e) = e ->
  binary_round_aux prec emax s (Zpos m) e loc_Exact
  = if (e <=? emax - prec)%Z then S754_finite s m e else S754_infinity s.
Proof.
  intro C. unfold binary_round_aux, shr_fexp. cbn [Zdigits2].
  rewrite C, Z.sub_diag. cbn [shr shr_record_of_loc shr_m loc_of_shr_record
                               round_nearest_even Zdigits2].
  rewrite C, Z.sub_diag. cbn [shr shr_record_of_loc shr_m]. reflexivity.
Qed.

Lemma shr_fexp_nonneg (m e : Z) (l : location) :
  (0 <= m)%Z -> (0 <= shr_m (fst (shr_fexp prec emax m e l)))%Z.
Proof.
  intro P. destruct (shr_fexp_spec m e l P) as [-> _].
  destruct (0 <? fexp prec emax (Zdigits2 m + e) - e)%Z eqn:N; [|exact P].
  apply Z.ltb_lt in N. apply Z.div_pos; [exact P | apply pow2_pos; lia].
Qed.

Lemma binary_round_aux_sign (s : bool) (m e : Z) (l : location) :
  (0 <= m)%Z ->
  match binary_round_aux prec emax s m e l with
  | S754_zero s' | S754_infinity s' | S754_finite s' _ _ => s' = s
  | S754_nan => False
  end.
Proof.
  intro P. unfold binary_round_aux.
  pose proof (shr_fexp_nonneg m e l P) as P1.
  destruct (shr_fexp prec emax m e l) as [mrs' e']. cbn [fst] in P1.
  pose proof (round_nearest_even_bounds (shr_m mrs') (loc_of_shr_record mrs')) as Rb.
  set (m2 := round_nearest_even (shr_m mrs') (loc_of_shr_record mrs')) in *.
  assert (P2 : (0 <= m2)%Z) by lia.
  pose proof (shr_fexp_nonneg m2 e' loc_Exact P2) as P3.
  destruct (shr_fexp prec emax m2 e' loc_Exact) as [mrs'' e'']. cbn [fst] in P3.
  destruct (shr_m mrs'') as [|p|p]; [reflexivity| |lia].
  destruct (e'' <=? emax - prec)%Z; reflexivity.
Qed.

Lemma binary_round_sign (s : bool) (m : positive) (e : Z) :
  match binary_round prec emax s m e with
  | S754_zero s' | S754_infinity s' | S754_finite s' _ _ => s' = s
  | S754_nan => False
  end.
Proof.
  unfold binary_round.
  destruct (shl_align m e (fexp prec emax (Zpos (digits2_pos m) + e))) as [mz ez].
  apply binary_round_aux_sign. lia.
Qed.

(** What a valid finite float says of its mantissa and exponent. *)
Lemma bounded_spec (m : positive) (e : Z) :
  bounded prec emax m e = true ->
  (Z.max (Zpos (digits2_pos m) + e - 53) (-1074) = e /\ e <= 971)%Z.
Proof.
  unfold bounded, canonical_mantissa, fexp, SpecFloat.emin, prec, emax.
  intro H. apply andb_true_iff in H. destruct H as [H1 H2].
  apply Z.eqb_eq in H1. apply Z.leb_le in H2. split; [exact H1 | exact H2].
Qed.

Lemma fexp_eq (x : Z) : fexp prec emax x = Z.max (x - 53) (-1074).
Proof. reflexivity. Qed.

Lemma pow2_split (a b : Z) : (0 <= a)%Z -> (0 <= b)%Z -> (2 ^ (a + b) = 2 ^ a * 2 ^ b)%Z.
Proof. intros. apply Z.pow_add_r; assumption. Qed.

Lemma digits_bounds (m : positive) :
  let d := Zpos (digits2_pos m) in
  (2 ^ (d - 1) <= Zpos m < 2 ^ d)%Z.
Proof.
  intro d. pose proof (digits_upper m) as U. pose proof (digits_lower m) as L.
  fold d in U, L.
  assert (E : (2 ^ d = 2 ^ (d - 1) * 2 ^ 1)%Z)
    by (rewrite <- pow2_split by (unfold d; lia); f_equal; lia).
  change (2 ^ 1)%Z with 2%Z in E. lia.
Qed.

(** The difference of two positive floats, rounded, is at most the first:
    [M * 2^ez] is less than [my * 2^ey], a float, and so is what it rounds
    to. *)
Lemma binary_round_le (M my : positive) (ez ey : Z) :
  bounded prec emax my ey = true ->
  (-1074 <= ez <= ey)%Z ->
  (Zpos M < Zpos my * 2 ^ (ey - ez))%Z ->
  match binary_round prec emax false M ez with
  | S754_zero _ => True
  | S754_finite false m' e' => (e' < ey \/ (e' = ey /\ Zpos m' <= Zpos my))%Z
  | _ => False
  end.
Proof.
  intros B [Lz Le] Lt.
  apply bounded_spec in B. destruct B as [Cy By].
  pose proof (digits_bounds M) as DM. pose proof (digits_bounds my) as Dy.
  cbv zeta in DM, Dy.
  set (d := Zpos (digits2_pos M)) in *. set (dy := Zpos (digits2_pos my)) in *.
  assert (Pd : (0 < d)%Z) by (unfold d; lia).
  assert (Pdy : (0 < dy)%Z) by (unfold dy; lia).
  assert (Dk : (d <= dy + (ey - ez))%Z).
  { assert (H : (2 ^ (d - 1) < 2 ^ (dy + (ey - ez)))%Z).
    { rewrite (pow2_split dy (ey - ez)) by lia.
      pose proof (pow2_pos (ey - ez) ltac:(lia)). nia. }
    apply Z.pow_lt_mono_r_iff in H; lia. }
  unfold binary_round. rewrite fexp_eq. fold d.
  set (E := Z.max (d + ez - 53) (-1074)).
  assert (LE : (E <= ey)%Z) by (unfold E; lia).
  destruct (Z_le_gt_dec E ez) as [A|A].
  - (* the result is exact *)
    destruct (shl_align_spec M ez E A) as [F1 F2].
    destruct (shl_align M ez E) as [mz ez']. cbn [fst snd] in F1, F2. subst ez'.
    assert (Dz : Zpos (digits2_pos mz) = (d + (ez - E))%Z).
    { apply digits_unique. rewrite F1.
      replace (d + (ez - E) - 1)%Z with ((d - 1) + (ez - E))%Z by lia.
      rewrite !pow2_split by lia.
      pose proof (pow2_pos (ez - E) ltac:(lia)). nia. }
    rewrite binary_round_aux_exact
      by (rewrite fexp_eq, Dz; unfold E; lia).
    assert (Fin : (E <=? emax - prec)%Z = true)
      by (apply Z.leb_le; unfold emax, prec; lia).
    rewrite Fin.
    destruct (Z.eq_dec E ey) as [Q|Q]; [right|left; lia].
    split; [exact Q|]. assert (ez = ey) by lia. subst ez.
    rewrite F1. replace (ey - E)%Z with 0%Z by lia.
    rewrite Z.sub_diag in Lt. simpl in Lt. lia.
  - (* the mantissa is cut to 53 bits *)
    rewrite shl_align_none by lia.
    assert (EE : E = (d + ez - 53)%Z) by (unfold E; lia).
    assert (Pn : (0 < d - 53)%Z) by lia.
    unfold binary_round_aux.
    pose proof (shr_fexp_spec (Zpos M) ez loc_Exact ltac:(lia)) as S1.
    cbv zeta in S1. cbn [Zdigits2] in S1. rewrite fexp_eq in S1. fold d in S1.
    fold E in S1.
    assert (N1 : (0 <? E - ez)%Z = true) by (apply Z.ltb_lt; lia).
    rewrite N1 in S1. destruct S1 as [S1m S1e].
    destruct (shr_fexp prec emax (Zpos M) ez loc_Exact) as [mrs' e'].
    cbn [fst snd] in S1m, S1e. subst e'.
    replace (ez + (E - ez))%Z with E by lia.
    replace (E - ez)%Z with (d - 53)%Z in S1m by lia.
    assert (B1 : (2 ^ 52 <= shr_m mrs' < 2 ^ 53)%Z).
    { rewrite S1m. pose proof (pow2_pos (d - 53) ltac:(lia)) as Pp. split.
      - apply Z.div_le_lower_bound; [exact Pp|].
        rewrite <- pow2_split by lia. replace (d - 53 + 52)%Z with (d - 1)%Z by lia.
        lia.
      - apply Z.div_lt_upper_bound; [exact Pp|].
        rewrite <- pow2_split by lia. replace (d - 53 + 53)%Z with d by lia.
        lia. }
    pose proof (round_nearest_even_bounds (shr_m mrs') (loc_of_shr_record mrs')) as Rb.
    set (m2 := round_nearest_even (shr_m mrs') (loc_of_shr_record mrs')) in *.
    assert (B2 : (2 ^ 52 <= m2 <= 2 ^ 53)%Z) by lia.
    assert (Pm2 : (0 < m2)%Z) by (pose proof (pow2_pos 52 ltac:(lia)); lia).
    destruct m2 as [|p2|p2] eqn:Em2; try lia.
    pose proof (shr_fexp_spec (Zpos p2) E loc_Exact ltac:(lia)) as S2.
    cbv zeta in S2. cbn [Zdigits2] in S2. rewrite fexp_eq in S2.
    (* when the exponents agree, the cut mantissa is below that of [y] *)
    assert (Top : (E = ey -> Zpos p2 <= Zpos my)%Z).
    { intro Q. assert (K : (d - 53 = ey - ez)%Z) by lia.
      assert (shr_m mrs' < Zpos my)%Z.
      { rewrite S1m, K. apply Z.div_lt_upper_bound; [apply pow2_pos; lia|]. lia. }
      lia. }
    assert (Ny : (dy <= 53)%Z) by lia.
    assert (Uy : (Zpos my < 2 ^ 53)%Z).
    { assert (2 ^ dy <= 2 ^ 53)%Z by (apply Z.pow_le_mono_r; lia). lia. }
    destruct (Z_lt_le_dec (Zpos p2) (2 ^ 53)) as [C|C].
    + (* no carry *)
      assert (D2 : Zpos (digits2_pos p2) = 53%Z)
        by (apply digits_unique; change (53 - 1)%Z with 52%Z; lia).
      rewrite D2 in S2.
      assert (N2 : (0 <? Z.max (53 + E - 53) (-1074) - E)%Z = false)
        by (apply Z.ltb_ge; lia).
      rewrite N2 in S2. destruct S2 as [S2m S2e].
      destruct (shr_fexp prec emax (Zpos p2) E loc_Exact) as [mrs'' e''].
      cbn [fst snd] in S2m, S2e. subst e''. rewrite S2m.
      assert (Fin : (E <=? emax - prec)%Z = true)
        by (apply Z.leb_le; unfold emax, prec; lia).
      rewrite Fin.
      destruct (Z.eq_dec E ey) as [Q|Q]; [right; split; [exact Q | apply Top, Q]|left; lia].
    + (* the rounding carries into a 54th bit *)
      assert (E2 : Zpos p2 = (2 ^ 53)%Z) by lia.
      assert (D2 : Zpos (digits2_pos p2) = 54%Z)
        by (apply digits_unique; change (54 - 1)%Z with 53%Z;
            rewrite E2; split; [lia | apply Z.pow_lt_mono_r; lia]).
      rewrite D2 in S2.
      assert (N2 : (0 <? Z.max (54 + E - 53) (-1074) - E)%Z = true)
        by (apply Z.ltb_lt; lia).
      rewrite N2 in S2. destruct S2 as [S2m S2e].
      destruct (shr_fexp prec emax (Zpos p2) E loc_Exact) as [mrs'' e''].
      cbn [fst snd] in S2m, S2e. subst e''. rewrite S2m.
      replace (Z.max (54 + E - 53) (-1074) - E)%Z with 1%Z by lia.
      rewrite E2. change (2 ^ 53 / 2 ^ 1)%Z with (Zpos (2 ^ 52)%positive).
      assert (NE : E <> ey) by (intro Q; specialize (Top Q); lia).
      assert (Fin : (E + 1 <=? emax - prec)%Z = true)
        by (apply Z.leb_le; unfold emax, prec; lia).
      rewrite Fin.
      destruct (Z.eq_dec (E + 1) ey) as [Q|Q]; [right|left; lia].
      split; [exact Q|].
      assert (dy = 53)%Z by lia.
      replace dy with 53%Z in Dy by lia. change (53 - 1)%Z with 52%Z in Dy.
      change (Zpos (2 ^ 52)%positive) with (2 ^ 52)%Z. lia.
Qed.

(** ** Sums and differences of amounts *)

Lemma le_sf_le (x y : float) : Py.le x y = true <-> sf_le (Prim2SF x) (Prim2SF y).
Proof.
  rewrite le_spec. unfold fle, flt, feq, sf_le.
  destruct (fkey (Prim2SF x)), (fkey (Prim2SF y)); tauto.
Qed.

Lemma le_zero_nonneg (x : float) : Py.le 0 x = true <-> sf_nonneg (Prim2SF x).
Proof.
  rewrite le_sf_le. change (Prim2SF 0) with (S754_zero false).
  unfold sf_le, sf_nonneg.
  destruct (Prim2SF x) as [[]|[]| |[] m e]; simpl; split; try tauto; try lia.
Qed.

Lemma lt_zero_pos (x : float) : Py.lt 0 x = true <-> sf_pos (Prim2SF x).
Proof.
  rewrite lt_spec. unfold flt. change (Prim2SF 0) with (S754_zero false).
  unfold sf_pos.
  destruct (Prim2SF x) as [[]|[]| |[] m e]; simpl; split; try tauto; try lia.
Qed.

Lemma isfinite_spec (x : float) : Py.isfinite x = true <-> sf_finite (Prim2SF x).
Proof.
  unfold Py.isfinite. fold (Py.lt (abs x) infinity). rewrite lt_spec. unfold flt.
  rewrite abs_spec. change (Prim2SF infinity) with (S754_infinity false).
  unfold sf_finite.
  destruct (Prim2SF x) as [[]|[]| |[] m e]; simpl; split; try tauto; try lia.
Qed.

Lemma binary_round_nonneg (m : positive) (e : Z) :
  sf_nonneg (binary_round prec emax false m e).
Proof.
  pose proof (binary_round_sign false m e) as H.
  destruct (binary_round prec emax false m e) as [s|s| |s m' e'];
    try subst s; simpl; tauto.
Qed.

Lemma binary_round_not_pos (m : positive) (e : Z) :
  ~ sf_pos (binary_round prec emax true m e).
Proof.
  pose proof (binary_round_sign true m e) as H.
  destruct (binary_round prec emax true m e) as [s|s| |s m' e'];
    try subst s; simpl; tauto.
Qed.

(** The sum of two amounts that are at least [0] is at least [0]: it may be
    infinite, it is never NaN. *)
Lemma SFadd_nonneg (X Y : spec_float) :
  sf_nonneg X -> sf_nonneg Y -> sf_nonneg (SFadd prec emax X Y).
Proof.
  destruct X as [[]|[]| |[] mx ex], Y as [[]|[]| |[] my ey]; simpl; try tauto.
  intros _ _. apply binary_round_nonneg.
Qed.

Lemma add_nonneg (x y : float) :
  Py.le 0 x = true -> Py.le 0 y = true -> Py.le 0 (x + y) = true.
Proof.
  rewrite !le_zero_nonneg, add_spec. apply SFadd_nonneg.
Qed.

(** Of two valid positive floats in order, the mantissas brought to the
    smaller exponent are in the same order. *)
Lemma aligned_le (ma mb : positive) (ea eb : Z) :
  bounded prec emax ma ea = true ->
  bounded prec emax mb eb = true ->
  (ea < eb \/ (ea = eb /\ Zpos ma <= Zpos mb))%Z ->
  (Zpos (fst (shl_align ma ea (Z.min eb ea)))
   <= Zpos (fst (shl_align mb eb (Z.min eb ea))))%Z.
Proof.
  intros Ba Bb O.
  apply bounded_spec in Ba. apply bounded_spec in Bb.
  destruct Ba as [Ca _], Bb as [Cb _].
  destruct (shl_align_spec ma ea (Z.min eb ea) ltac:(lia)) as [-> _].
  destruct (shl_align_spec mb eb (Z.min eb ea) ltac:(lia)) as [-> _].
  destruct O as [O|[O1 O2]].
  - replace (Z.min eb ea) with ea by lia. rewrite Z.sub_diag.
    change (2 ^ 0)%Z with 1%Z.
    pose proof (digits_bounds ma) as Da. pose proof (digits_bounds mb) as Db.
    cbv zeta in Da, Db.
    assert (Ua : (Zpos ma < 2 ^ 53)%Z).
    { assert (2 ^ Zpos (digits2_pos ma) <= 2 ^ 53)%Z
        by (apply Z.pow_le_mono_r; lia). lia. }
    assert (Zpos (digits2_pos mb) = 53%Z) by lia.
    replace (Zpos (digits2_pos mb)) with 53%Z in Db.
    change (53 - 1)%Z with 52%Z in Db.
    assert (P : (2 ^ 1 <= 2 ^ (eb - ea))%Z) by (apply Z.pow_le_mono_r; lia).
    change (2 ^ 1)%Z with 2%Z in P.
    assert (Q : (2 ^ 53 = 2 * 2 ^ 52)%Z) by reflexivity.
    nia.
  - subst eb. replace (Z.min ea ea) with ea by lia. rewrite Z.sub_diag.
    change (2 ^ 0)%Z with 1%Z. lia.
Qed.

(** Taking an amount that is finite, at least [0] and at most [Y] from [Y]
    leaves at least [0]. *)
Lemma SFsub_nonneg (X Y : spec_float) :
  valid_binary X = true -> valid_binary Y = true ->
  sf_nonneg X -> sf_finite X -> sf_le X Y ->
  sf_nonneg (SFsub prec emax Y X).
Proof.
  destruct X as [[]|[]| |[] mx ex], Y as [[]|[]| |[] my ey];
    try (unfold sf_le; simpl; try tauto; lia).
  intros Bx By _ _ O. unfold valid_binary, SpecFloat.valid_binary in Bx, By.
  assert (O' : (ex < ey \/ (ex = ey /\ Zpos mx <= Zpos my))%Z)
    by (unfold sf_le in O; simpl in O; lia).
  pose proof (aligned_le mx my ex ey Bx By O') as A.
  unfold SFsub. cbv zeta. cbn [cond_Zopp].
  destruct (Zpos (fst (shl_align my ey (Z.min ey ex)))
            - Zpos (fst (shl_align mx ex (Z.min ey ex))))%Z as [|p|p] eqn:D;
    try lia; cbn [binary_normalize].
  - exact I.
  - apply binary_round_nonneg.
Qed.

Lemma sub_nonneg (a b : float) :
  Py.le a b = true -> Py.le 0 a = true -> Py.isfinite a = true ->
  Py.le 0 (b - a) = true.
Proof.
  rewrite le_sf_le, !le_zero_nonneg, isfinite_spec, sub_spec.
  intros O N F. apply SFsub_nonneg; auto using Prim2SF_valid.
Qed.

(** Taking an amount that is at least [0] from [Y] leaves, when it leaves
    more than [0], at most [Y]: rounding does not carry the difference
    above [Y]. *)
Lemma SFsub_le (X Y : spec_float) :
  valid_binary X = true -> valid_binary Y = true ->
  sf_nonneg X -> sf_pos (SFsub prec emax Y X) ->
  sf_le (SFsub prec emax Y X) Y.
Proof.
  destruct X as [[]|[]| |[] mx ex], Y as [[]|[]| |[] my ey];
    try (simpl; unfold sf_le; simpl; try tauto; lia).
  { intros _ _ _ P. simpl in P. exfalso. exact (binary_round_not_pos _ _ P). }
  intros Bx By _. unfold valid_binary, SpecFloat.valid_binary in Bx, By.
  unfold SFsub. cbv zeta. cbn [cond_Zopp].
  pose proof (bounded_spec _ _ Bx) as [Cx _].
  pose proof (bounded_spec _ _ By) as [Cy _].
  destruct (shl_align_spec mx ex (Z.min ey ex) ltac:(lia)) as [Ax _].
  destruct (shl_align_spec my ey (Z.min ey ex) ltac:(lia)) as [Ay _].
  destruct (Zpos (fst (shl_align my ey (Z.min ey ex)))
            - Zpos (fst (shl_align mx ex (Z.min ey ex))))%Z as [|p|p] eqn:D;
    cbn [binary_normalize].
  - simpl. tauto.
  - intros _.
    assert (L : (Zpos p < Zpos my * 2 ^ (ey - Z.min ey ex))%Z) by lia.
    pose proof (binary_round_le p my (Z.min ey ex) ey By ltac:(lia) L) as R.
    unfold sf_le.
    destruct (binary_round prec emax false p (Z.min ey ex)) as [s|s| |[] m' e'];
      simpl; try tauto; lia.
  - intro P. exfalso. exact (binary_round_not_pos _ _ P).
Qed.

Lemma sub_le (x y : float) :
  Py.le 0 x = true -> Py.lt 0 (y - x) = true -> Py.le (y - x) y = true.
Proof.
  rewrite le_zero_nonneg, lt_zero_pos, le_sf_le, sub_spec.
  intros N P. apply SFsub_le; auto using Prim2SF_valid.
Qed.

(** The sum of a list of amounts that are at least [0]. *)
Lemma fold_add_nonneg (l : list float) (acc : float) :
  Py.le 0 acc = true ->
  Forall (fun v => Py.le 0 v = true) l ->
  Py.le 0 (fold_left PrimFloat.add l acc) = true.
Proof.
  revert acc. induction l as [|v l IH]; intros acc A F; simpl; [exact A|].
  inversion F; subst. apply IH; [apply add_nonneg; assumption | assumption].
Qed.

Lemma sum_nonneg (l : list float) :
  Forall (fun v => Py.le 0 v = true) l -> Py.le 0 (Py.sum l) = true.
Proof.
  intro F. apply fold_add_nonneg; [reflexivity | exact F].
Qed.

(** ** Withdrawals *)

Lemma available_inv (TESTCASE : Z) (heap : ref -> Check) (s s' : BankAccount) (a : float) :
  available TESTCASE heap s = (Ok a, s') ->
  a = available_value TESTCASE heap s /\ s' = s.
Proof.
  rewrite available_run. intro H. inversion H. auto.
Qed.

(** An amount above the available balance is positive. *)
Lemma above_available_positive (TESTCASE : Z) (heap : ref -> Check) (s : BankAccount)
      (a : float) :
  Py.lt (available_value TESTCASE heap s) a = true -> Py.le a 0 = false.
Proof.
  intro G. apply lt_not_le.
  apply (le_lt_trans 0 (available_value TESTCASE heap s) a);
    [apply available_value_nonneg | exact G].
Qed.

(** C3.  Unless the defect [BUG_CANT_WITHDRAW_AVAILABLE] is selected: in every
    account state whose available balance is [a > 0], [withdraw(a)] succeeds:
    it returns a [Money] of exactly [a] and puts the total balance at the
    float difference [total_balance - a], changing nothing else.  (The
    available balance afterwards is the formula at the new balance; with the
    rounding of the two subtractions it need not be [0].) *)
Theorem withdraw_exactly_available
        (TESTCASE : Z) (heap : ref -> Check) (s : BankAccount) (a av : float) :
  TESTCASE <> BUG_CANT_WITHDRAW_AVAILABLE ->
  available TESTCASE heap s = (Ok av, s) ->
  Py.eq a av = true ->
  Py.lt 0 a = true ->
  exists s',
    withdraw TESTCASE heap a s = (Ok (Some (mkMoney a)), s') /\
    s' = with_balance s (__balance s - a) /\
    __balance s' = __balance s - a /\
    exists av', available TESTCASE heap s' = (Ok av', s') /\ Py.le 0 av' = true.
Proof.
  intros N Hav E P.
  apply available_inv in Hav. destruct Hav as [-> _].
  exists (with_balance s (__balance s - a)).
  split; [|split; [reflexivity|split; [reflexivity|]]].
  - rewrite withdraw_eq.
    rewrite (lt_not_le 0 a P), (eq_not_lt a _ E),
            (bug_off TESTCASE BUG_CANT_WITHDRAW_AVAILABLE N), andb_false_r.
    reflexivity.
  - eexists. split; [apply available_run | apply available_value_nonneg].
Qed.

(** C4.  [withdraw(a)] raises the "must be positive" error when [a <= 0];
    unless the defect [BUG_WITHDRAW_FAILS_SILENTLY] is selected it raises the
    "exceeds available balance" error when [a] is larger than the available
    balance; and a call of [withdraw] that raises leaves the whole account as
    it was. *)
Theorem withdraw_failures
        (TESTCASE : Z) (heap : ref -> Check) (s : BankAccount) (a : float) :
  (Py.le a 0 = true ->
   withdraw TESTCASE heap a s = (Raise (Py.ValueError MSG_NOT_POSITIVE), s)) /\
  (TESTCASE <> BUG_WITHDRAW_FAILS_SILENTLY ->
   forall av, available TESTCASE heap s = (Ok av, s) -> Py.lt av a = true ->
   withdraw TESTCASE heap a s = (Raise (Py.ValueError MSG_EXCEEDS), s)) /\
  (forall e s', withdraw TESTCASE heap a s = (Raise e, s') -> s' = s).
Proof.
  rewrite withdraw_eq. split; [|split].
  - intro L. rewrite L. reflexivity.
  - intros N av Hav G. apply available_inv in Hav. destruct Hav as [-> _].
    rewrite (above_available_positive TESTCASE heap s a G), G,
            (bug_off TESTCASE BUG_WITHDRAW_FAILS_SILENTLY N).
    reflexivity.
  - intros e s'.
    destruct (Py.le a 0); [intro H; inversion H; reflexivity|].
    destruct (Py.lt (available_value TESTCASE heap s) a).
    + destruct (bug TESTCASE BUG_WITHDRAW_FAILS_SILENTLY);
        intro H; inversion H; reflexivity.
    + destruct (Py.eq a (available_value TESTCASE heap s)
                && bug TESTCASE BUG_CANT_WITHDRAW_AVAILABLE)%bool;
        intro H; inversion H; reflexivity.
Qed.

(** ** Deposits *)

Lemma value_positive_accepted (TESTCASE : Z) (v : float) :
  Py.lt 0 v = true -> value_refused TESTCASE v = false.
Proof.
  intro P. unfold value_refused. rewrite (lt_not_le 0 v P). reflexivity.
Qed.

Lemma deposit_cash_succeeds (TESTCASE : Z) (heap : ref -> Check)
      (lower : string -> string) (m : Money) (s : BankAccount) :
  Py.lt 0 (money_value m) = true ->
  deposit TESTCASE heap lower (Cash m) s
  = (Ok tt, with_balance s (__balance s + money_value m)).
Proof.
  intro P. rewrite deposit_cash_eq, (value_positive_accepted TESTCASE _ P).
  reflexivity.
Qed.

Lemma deposit_check_succeeds (TESTCASE : Z) (heap : ref -> Check)
      (lower : string -> string) (check : ref) (s : BankAccount) :
  Py.lt 0 (check_value (heap check)) = true ->
  payee_mismatch lower (__name s) (heap check) = false ->
  ~ In check (__deposited_checks s) ->
  deposit TESTCASE heap lower (ACheck check) s
  = (Ok tt, with_check s check (check_value (heap check))).
Proof.
  intros P Hp Hn. apply contains_not_In in Hn.
  rewrite deposit_check_eq, (value_positive_accepted TESTCASE _ P), Hp, Hn.
  reflexivity.
Qed.

Lemma balance_value_eq (TESTCASE : Z) (heap : ref -> Check) (s : BankAccount) :
  balance_value TESTCASE heap s =
  __balance s
  - (if bug TESTCASE BUG_BALANCE_EXCLUDES_HOLDS
     then Py.sum (map (fun r => check_value (heap r)) (__pending_checks s))
     else 0).
Proof.
  unfold balance_value, balance. run_monad.
  destruct (bug TESTCASE BUG_BALANCE_EXCLUDES_HOLDS); reflexivity.
Qed.

(** Without the defect [BUG_BALANCE_EXCLUDES_HOLDS], [balance] returns the
    total balance. *)
Lemma balance_is_total (TESTCASE : Z) (heap : ref -> Check) (s : BankAccount) :
  TESTCASE <> BUG_BALANCE_EXCLUDES_HOLDS ->
  balance TESTCASE heap s = (Ok (__balance s), s).
Proof.
  intro N. rewrite balance_run, balance_value_eq, (bug_off TESTCASE _ N), sub_zero.
  reflexivity.
Qed.

(** C5.  Whichever value [TESTCASE] has: a deposit of value [v > 0] that
    succeeds puts the total balance at the float sum [total_balance + v]
    (the sum rounded to the nearest float) and keeps the owner and the
    minimum balance; a deposit of cash leaves [pending_checks] and
    [deposited_checks] as they were, a deposit of a check appends the check to
    both.  Unless [BUG_BALANCE_EXCLUDES_HOLDS] is selected, [balance] returns
    the total balance, before and after. *)
Theorem deposit_effect
        (TESTCASE : Z) (heap : ref -> Check) (lower : string -> string)
        (money : deposit_arg) (s s' : BankAccount) :
  Py.lt 0 (value heap money) = true ->
  deposit TESTCASE heap lower money s = (Ok tt, s') ->
  __balance s' = __balance s + value heap money /\
  __name s' = __name s /\
  __min_balance s' = __min_balance s /\
  match money with
  | Cash _ =>
      __pending_checks s' = __pending_checks s /\
      __deposited_checks s' = __deposited_checks s
  | ACheck check =>
      __pending_checks s' = __pending_checks s ++ [check] /\
      __deposited_checks s' = __deposited_checks s ++ [check]
  end /\
  (TESTCASE <> BUG_BALANCE_EXCLUDES_HOLDS ->
   balance TESTCASE heap s = (Ok (__balance s), s) /\
   balance TESTCASE heap s' = (Ok (__balance s + value heap money), s')).
Proof.
  intros P H.
  assert (Bal : TESTCASE <> BUG_BALANCE_EXCLUDES_HOLDS ->
                __balance s' = __balance s + value heap money ->
                balance TESTCASE heap s = (Ok (__balance s), s) /\
                balance TESTCASE heap s' = (Ok (__balance s + value heap money), s')).
  { intros N E. split; [apply (balance_is_total _ _ _ N)|].
    rewrite (balance_is_total _ _ _ N), E. reflexivity. }
  destruct money as [m|check]; cbn [value] in *.
  - rewrite (deposit_cash_succeeds TESTCASE heap lower m s P) in H.
    inversion H; subst s'; clear H.
    repeat split; try reflexivity; apply (Bal H); reflexivity.
  - rewrite deposit_check_eq, (value_positive_accepted TESTCASE _ P) in H.
    destruct (payee_mismatch lower (__name s) (heap check)
              && negb (bug TESTCASE BUG_DEPOSIT_ANY_PAYEE))%bool; [discriminate|].
    destruct (Py.contains check (__deposited_checks s)
              && negb (bug TESTCASE BUG_DUPLICATE_CHECK))%bool; [discriminate|].
    inversion H; subst s'; clear H.
    repeat split; try reflexivity; apply (Bal H); reflexivity.
Qed.

(** ** Checks on record *)

(** A check already on record is refused with a [CheckError], once the test
    of its value has let it through. *)
Lemma deposit_known_check (TESTCASE : Z) (heap : ref -> Check)
      (lower : string -> string) (check : ref) (s : BankAccount) :
  TESTCASE <> BUG_DUPLICATE_CHECK ->
  value_refused TESTCASE (check_value (heap check)) = false ->
  In check (__deposited_checks s) ->
  deposit TESTCASE heap lower (ACheck check) s =
  (Raise (Py.CheckError
     (if (payee_mismatch lower (__name s) (heap check)
          && negb (bug TESTCASE BUG_DEPOSIT_ANY_PAYEE))%bool
      then MSG_PAYEE (heap check) else MSG_ALREADY_DEPOSITED)), s).
Proof.
  intros N V I. apply contains_In in I.
  pose proof (bug_off TESTCASE BUG_DUPLICATE_CHECK N) as B.
  rewrite deposit_check_eq, V, I, B.
  destruct (payee_mismatch lower (__name s) (heap check)
            && negb (bug TESTCASE BUG_DEPOSIT_ANY_PAYEE))%bool; reflexivity.
Qed.

Lemma vetted_new (TESTCASE : Z) (heap : ref -> Check) (lower : string -> string)
      (name : string) (minb : float) (s : BankAccount) :
  new_account name minb = Ok s -> vetted TESTCASE heap lower s.
Proof.
  intro H. apply new_account_inv in H. destruct H as [-> _]. constructor.
Qed.

Lemma vetted_transition (TESTCASE : Z) (heap : ref -> Check) (lower : string -> string)
      (s s' : BankAccount) :
  vetted TESTCASE heap lower s -> transition TESTCASE heap lower s s' ->
  vetted TESTCASE heap lower s'.
Proof.
  intros V T. destruct T as [|v R|r Pr _|r l C R|a P L]; try exact V.
  unfold vetted, with_check. cbn [__name __deposited_checks].
  apply Forall_app. split; [exact V|]. constructor; [exact Pr | constructor].
Qed.

Lemma reachable_vetted (TESTCASE : Z) (heap : ref -> Check) (lower : string -> string)
      (s : BankAccount) :
  reachable TESTCASE heap lower s -> vetted TESTCASE heap lower s.
Proof.
  apply reachable_preserved.
  - apply vetted_new.
  - apply vetted_transition.
Qed.

(** C6.  Unless the defect [BUG_DUPLICATE_CHECK] is selected, depositing a
    check that is in [deposited_checks], pending or cleared, fails and leaves
    the account, with its balance and both lists, as it was: in every account
    state a check of positive value is refused with a [CheckError], and in
    every reachable account any such check is refused with the [CheckError]
    "Check already deposited". *)
Theorem deposit_duplicate_rejected
        (TESTCASE : Z) (heap : ref -> Check) (lower : string -> string)
        (s : BankAccount) (check : ref) :
  TESTCASE <> BUG_DUPLICATE_CHECK ->
  In check (__deposited_checks s) ->
  (Py.lt 0 (check_value (heap check)) = true ->
   exists msg,
     deposit TESTCASE heap lower (ACheck check) s = (Raise (Py.CheckError msg), s)) /\
  (reachable TESTCASE heap lower s ->
   deposit TESTCASE heap lower (ACheck check) s
   = (Raise (Py.CheckError MSG_ALREADY_DEPOSITED), s)).
Proof.
  intros N I. split.
  - intro P. eexists.
    apply (deposit_known_check TESTCASE heap lower check s N
             (value_positive_accepted TESTCASE _ P) I).
  - intro R.
    pose proof (reachable_vetted TESTCASE heap lower s R) as V.
    unfold vetted in V. rewrite Forall_forall in V.
    destruct (V check I) as [Hv Hp].
    rewrite (deposit_known_check TESTCASE heap lower check s N Hv I), Hp.
    reflexivity.
Qed.

Lemma payee_mismatch_true (lower : string -> string) (name p : string) (c : Check) :
  payee c = Some p -> p <> EmptyString -> lower p <> lower name ->
  payee_mismatch lower name c = true.
Proof.
  intros E Ne Nl. unfold payee_mismatch. rewrite E.
  destruct p as [|ch p]; [congruence|].
  cbn [Py.truthy Py.str andb]. apply negb_true_iff.
  apply String.eqb_neq. exact Nl.
Qed.

Lemma payee_mismatch_falsy (lower : string -> string) (name : string) (c : Check) :
  Py.truthy (payee c) = false -> payee_mismatch lower name c = false.
Proof.
  intro F. unfold payee_mismatch. rewrite F. reflexivity.
Qed.

(** C7.  Unless the defect [BUG_DEPOSIT_ANY_PAYEE] is selected, depositing a
    check of positive value whose payee is a non-empty string that differs
    from the owner's name after [str.lower] of both raises the [CheckError]
    "Check payee ... is not account owner" and leaves the account as it was.
    A check whose payee is empty or absent never gets that error: with a
    positive value and not yet on record, its deposit succeeds, whatever the
    owner's name is. *)
Theorem deposit_payee_checked
        (TESTCASE : Z) (heap : ref -> Check) (lower : string -> string)
        (s : BankAccount) (check : ref) :
  Py.lt 0 (check_value (heap check)) = true ->
  (TESTCASE <> BUG_DEPOSIT_ANY_PAYEE ->
   forall p, payee (heap check) = Some p -> p <> EmptyString ->
             lower p <> lower (__name s) ->
   deposit TESTCASE heap lower (ACheck check) s
   = (Raise (Py.CheckError (MSG_PAYEE (heap check))), s)) /\
  (Py.truthy (payee (heap check)) = false ->
   (forall e s', deposit TESTCASE heap lower (ACheck check) s = (Raise e, s') ->
                 e = Py.CheckError MSG_ALREADY_DEPOSITED /\
                 In check (__deposited_checks s)) /\
   (~ In check (__deposited_checks s) ->
    deposit TESTCASE heap lower (ACheck check) s
    = (Ok tt, with_check s check (check_value (heap check))))).
Proof.
  intro P. pose proof (value_positive_accepted TESTCASE _ P) as V. split.
  - intros N p E Ne Nl.
    pose proof (bug_off TESTCASE BUG_DEPOSIT_ANY_PAYEE N) as B.
    rewrite deposit_check_eq, V, (payee_mismatch_true _ _ p _ E Ne Nl), B.
    reflexivity.
  - intro F. pose proof (payee_mismatch_falsy lower (__name s) _ F) as Hp. split.
    + intros e s'. rewrite deposit_check_eq, V, Hp. cbn [andb].
      destruct (Py.contains check (__deposited_checks s)) eqn:C;
        [|discriminate].
      destruct (bug TESTCASE BUG_DUPLICATE_CHECK); [discriminate|].
      cbn [andb negb]. intro H. inversion H; subst.
      split; [reflexivity | apply contains_In, C].
    + intro Hn. apply (deposit_check_succeeds TESTCASE heap lower check s P Hp Hn).
Qed.

(** ** No check twice *)

Lemma NoDup_snoc (l : list ref) (x : ref) :
  NoDup l -> ~ In x l -> NoDup (l ++ [x]).
Proof.
  induction 1 as [|y l Hy ND IH]; intro Hx; simpl.
  - constructor; [tauto | constructor].
  - constructor.
    + rewrite in_app_iff. simpl. intros [H|[H|[]]]; [tauto|].
      apply Hx. left. symmetry. exact H.
    + apply IH. intro H. apply Hx. right. exact H.
Qed.

Lemma distinct_new (name : string) (minb : float) (s : BankAccount) :
  new_account name minb = Ok s -> distinct s.
Proof.
  intro H. apply new_account_inv in H. destruct H as [-> _].
  constructor; simpl; [constructor | constructor | apply incl_refl].
Qed.

Lemma distinct_transition (TESTCASE : Z) (heap : ref -> Check) (lower : string -> string)
      (s s' : BankAccount) :
  TESTCASE <> BUG_DUPLICATE_CHECK ->
  distinct s -> transition TESTCASE heap lower s s' -> distinct s'.
Proof.
  intros N [D1 D2 D3] T.
  destruct T as [|v R|r _ Fresh|r l C R|a P L];
    constructor;
    cbn [with_balance with_check with_pending __pending_checks __deposited_checks];
    try assumption.
  - apply NoDup_snoc; [exact D1|]. intro I. apply N, Fresh, I.
  - apply NoDup_snoc; [exact D2|]. intro I. apply N, Fresh, D3, I.
  - apply incl_app_app; [exact D3 | apply incl_refl].
  - apply (remove_NoDup _ _ _ R D2).
  - intros z Hz. apply D3. apply (remove_subset _ _ _ R). exact Hz.
Qed.

Lemma reachable_distinct (TESTCASE : Z) (heap : ref -> Check) (lower : string -> string)
      (s : BankAccount) :
  TESTCASE <> BUG_DUPLICATE_CHECK ->
  reachable TESTCASE heap lower s -> distinct s.
Proof.
  intro N. apply reachable_preserved.
  - apply distinct_new.
  - intros s0 s1 D T. apply (distinct_transition TESTCASE heap lower s0 s1 N D T).
Qed.

(** ** Clearing checks *)

(** C8.  In every account state: clearing a check that is in
    [pending_checks] succeeds and only takes its first occurrence out of
    [pending_checks] (every other check stays, and where the list has no
    repetition the check is no longer in it); unless the defect
    [BUG_CLEAR_ANY_CHECK] is selected, clearing a check that is not in
    [pending_checks] raises the [CheckError] "... is not an uncleared check"
    and leaves the account as it was, and so does the second of two
    clearings of a check that was pending once. *)
Theorem clear_check_effect
        (TESTCASE : Z) (heap : ref -> Check) (s : BankAccount) (check : ref) :
  (In check (__pending_checks s) ->
   exists l,
     clear_check TESTCASE heap check s = (Ok tt, with_pending s l) /\
     Py.remove check (__pending_checks s) = Some l /\
     (forall z, z <> check -> (In z l <-> In z (__pending_checks s))) /\
     (NoDup (__pending_checks s) -> ~ In check l)) /\
  (TESTCASE <> BUG_CLEAR_ANY_CHECK ->
   ~ In check (__pending_checks s) ->
   clear_check TESTCASE heap check s
   = (Raise (Py.CheckError (MSG_NOT_PENDING (heap check))), s)) /\
  (TESTCASE <> BUG_CLEAR_ANY_CHECK ->
   NoDup (__pending_checks s) ->
   In check (__pending_checks s) ->
   exists s1,
     clear_check TESTCASE heap check s = (Ok tt, s1) /\
     clear_check TESTCASE heap check s1
     = (Raise (Py.CheckError (MSG_NOT_PENDING (heap check))), s1)).
Proof.
  assert (Absent : forall s0, TESTCASE <> BUG_CLEAR_ANY_CHECK ->
            ~ In check (__pending_checks s0) ->
            clear_check TESTCASE heap check s0
            = (Raise (Py.CheckError (MSG_NOT_PENDING (heap check))), s0)).
  { intros s0 N Hn. apply contains_not_In in Hn.
    pose proof (bug_off TESTCASE BUG_CLEAR_ANY_CHECK N) as B.
    rewrite clear_check_eq, Hn, B. reflexivity. }
  assert (Present : In check (__pending_checks s) ->
            exists l,
              clear_check TESTCASE heap check s = (Ok tt, with_pending s l) /\
              Py.remove check (__pending_checks s) = Some l).
  { intro I. destruct (remove_In _ _ I) as [l R]. exists l.
    apply contains_In in I. rewrite clear_check_eq, I, R. auto. }
  split; [|split].
  - intro I. destruct (Present I) as [l [E R]]. exists l.
    split; [exact E|]. split; [exact R|]. split.
    + intros z Nz. split.
      * apply (remove_subset _ _ _ R).
      * apply (remove_other _ _ _ _ R Nz).
    + intro ND. apply (remove_NoDup _ _ _ R ND).
  - apply Absent.
  - intros N ND I. destruct (Present I) as [l [E R]].
    exists (with_pending s l). split; [exact E|].
    apply (Absent _ N). cbn [with_pending __pending_checks].
    apply (remove_NoDup _ _ _ R ND).
Qed.

(** C9.  Whichever value [TESTCASE] has and whether the call succeeds or
    fails: [withdraw] leaves [pending_checks], [deposited_checks], the minimum
    balance and the owner's name as they were; [clear_check] leaves the
    minimum balance, the owner's name, the total balance and
    [deposited_checks] as they were. *)
Theorem withdraw_clear_check_frame
        (TESTCASE : Z) (heap : ref -> Check) (s : BankAccount) :
  (forall amount,
     let s' := state_after (withdraw TESTCASE heap amount) s in
     __pending_checks s' = __pending_checks s /\
     __deposited_checks s' = __deposited_checks s /\
     __min_balance s' = __min_balance s /\
     __name s' = __name s) /\
  (forall check,
     let s' := state_after (clear_check TESTCASE heap check) s in
     __min_balance s' = __min_balance s /\
     __name s' = __name s /\
     __balance s' = __balance s /\
     __deposited_checks s' = __deposited_checks s).
Proof.
  split.
  - intro amount. unfold state_after. rewrite withdraw_eq.
    destruct (Py.le amount 0); [auto|].
    destruct (Py.lt (available_value TESTCASE heap s) amount).
    + destruct (bug TESTCASE BUG_WITHDRAW_FAILS_SILENTLY); auto.
    + destruct (Py.eq amount (available_value TESTCASE heap s)
                && bug TESTCASE BUG_CANT_WITHDRAW_AVAILABLE)%bool; simpl; auto.
  - intro check. unfold state_after. rewrite clear_check_eq.
    destruct (Py.contains check (__pending_checks s)).
    + destruct (Py.remove check (__pending_checks s)); simpl; auto.
    + destruct (bug TESTCASE BUG_CLEAR_ANY_CHECK); auto.
Qed.

(** C10.  Unless the defect [BUG_DUPLICATE_CHECK] is selected: in every
    reachable account no check occurs twice in [pending_checks] and no check
    occurs twice in [deposited_checks]. *)
Theorem reachable_no_duplicates
        (TESTCASE : Z) (heap : ref -> Check) (lower : string -> string)
        (s : BankAccount) :
  TESTCASE <> BUG_DUPLICATE_CHECK ->
  reachable TESTCASE heap lower s ->
  NoDup (__pending_checks s) /\ NoDup (__deposited_checks s).
Proof.
  intros N R. destruct (reachable_distinct TESTCASE heap lower s N R) as [D1 D2 _].
  split; assumption.
Qed.

(** ** The invariant of the amounts *)

Lemma isfinite_number (x : float) : Py.isfinite x = true -> Py.eq x x = true.
Proof.
  rewrite isfinite_spec, eq_spec. unfold feq, sf_finite.
  destruct (Prim2SF x) as [[]|[]| |[] m e]; simpl; tauto.
Qed.

Lemma isnan_false (x : float) : Py.isnan x = false -> Py.eq x x = true.
Proof.
  unfold Py.isnan. intro H. apply negb_false_iff in H. exact H.
Qed.

(** A value that [deposit] does not refuse and that is a number is at least
    [0]. *)
Lemma accepted_nonneg (TESTCASE : Z) (v : float) :
  value_refused TESTCASE v = false -> Py.eq v v = true -> Py.le 0 v = true.
Proof.
  unfold value_refused. intros R N.
  apply andb_false_iff in R. destruct R as [R|R].
  - float_order.
  - apply negb_false_iff, andb_true_iff in R. destruct R as [R _]. float_order.
Qed.

Lemma hold_nonneg (x y : float) : Py.le 0 x = true -> Py.le 0 (Py.max x y) = true.
Proof.
  intro P. destruct (max_cases x y) as [[L ->]|[_ ->]]; [|exact P].
  apply lt_le. apply (le_lt_trans 0 x y); assumption.
Qed.

Lemma pending_sum_nonneg (heap : ref -> Check) (s : BankAccount) :
  sound heap s ->
  Py.le 0 (Py.sum (map (fun r => check_value (heap r)) (__pending_checks s))) = true.
Proof.
  intro S. apply sum_nonneg. apply Forall_map. exact (sound_values heap s S).
Qed.

(** What [available] returns is at most [total_balance], whatever defect is
    selected. *)
Lemma available_le_total (TESTCASE : Z) (heap : ref -> Check) (s : BankAccount) :
  sound heap s ->
  Py.le (available_value TESTCASE heap s) (__balance s) = true.
Proof.
  intro S. rewrite available_value_unclamped.
  destruct (clamp_cases (unclamped TESTCASE heap s)) as [[P ->]|[_ ->]];
    [|exact (sound_balance heap s S)].
  revert P. unfold unclamped.
  pose proof (pending_sum_nonneg heap s S) as Sum.
  pose proof (sound_minimum heap s S) as Min.
  destruct (bug TESTCASE BUG_AVAILABLE_BALANCE);
    [|destruct (bug TESTCASE BUG_MINIMUM_IS_IGNORED)]; intro P.
  - pose proof (sub_le _ _ Sum P) as L1.
    assert (P1 : Py.lt 0 (__balance s - __min_balance s) = true)
      by (apply (lt_le_trans _ _ _ P L1)).
    pose proof (sub_le _ _ Min P1) as L2.
    apply (le_trans _ _ _ L1 L2).
  - apply sub_le; assumption.
  - apply sub_le; [apply hold_nonneg, Min | exact P].
Qed.

Lemma new_account_sound (heap : ref -> Check) (name : string) (minb : float)
      (s : BankAccount) :
  new_account name minb = Ok s -> sound heap s.
Proof.
  intro H. apply new_account_inv in H. destruct H as [-> L].
  split; simpl; [exact L | reflexivity | constructor | apply incl_refl].
Qed.

Lemma withdraw_sound (TESTCASE : Z) (heap : ref -> Check) (amount : float)
      (s : BankAccount) :
  sound heap s -> Py.isfinite amount = true ->
  sound heap (state_after (withdraw TESTCASE heap amount) s).
Proof.
  intros S F. unfold state_after. rewrite withdraw_eq.
  destruct (Py.le amount 0) eqn:P; [exact S|].
  destruct (Py.lt (available_value TESTCASE heap s) amount) eqn:L.
  { destruct (bug TESTCASE BUG_WITHDRAW_FAILS_SILENTLY); exact S. }
  destruct (Py.eq amount (available_value TESTCASE heap s)
            && bug TESTCASE BUG_CANT_WITHDRAW_AVAILABLE)%bool; [exact S|].
  cbn [snd].
  pose proof (isfinite_number amount F) as N.
  pose proof (available_value_nonneg TESTCASE heap s) as A0.
  pose proof (available_le_total TESTCASE heap s S) as A1.
  assert (L1 : Py.le amount (available_value TESTCASE heap s) = true)
    by (clear A1; float_order).
  assert (L0 : Py.le 0 amount = true) by (clear A0 A1 L L1; float_order).
  destruct S as [S1 S2 S3 S4]. split; cbn; try assumption.
  apply sub_nonneg; [|exact L0|exact F].
  apply (le_trans _ _ _ L1 A1).
Qed.

Lemma clear_check_sound (TESTCASE : Z) (heap : ref -> Check) (check : ref)
      (s : BankAccount) :
  sound heap s -> sound heap (state_after (clear_check TESTCASE heap check) s).
Proof.
  intro S. unfold state_after. rewrite clear_check_eq.
  destruct (Py.contains check (__pending_checks s)).
  - destruct (Py.remove check (__pending_checks s)) as [l|] eqn:R; [|exact S].
    cbn [snd]. pose proof (remove_subset _ _ _ R) as I.
    destruct S as [S1 S2 S3 S4]. split; cbn; try assumption.
    + rewrite Forall_forall in *. intros r Hr. apply S3, I, Hr.
    + intros r Hr. apply S4, I, Hr.
  - destruct (bug TESTCASE BUG_CLEAR_ANY_CHECK); exact S.
Qed.

Lemma deposit_sound (TESTCASE : Z) (heap : ref -> Check) (lower : string -> string)
      (money : deposit_arg) (s : BankAccount) :
  sound heap s -> Py.isnan (value heap money) = false ->
  sound heap (state_after (deposit TESTCASE heap lower money) s).
Proof.
  intros S N. apply isnan_false in N. unfold state_after.
  destruct money as [m|check]; cbn [value] in N.
  - rewrite deposit_cash_eq.
    destruct (value_refused TESTCASE (money_value m)) eqn:R; [exact S|].
    cbn [snd]. pose proof (accepted_nonneg _ _ R N) as P.
    destruct S as [S1 S2 S3 S4]. split; cbn; try assumption.
    apply add_nonneg; assumption.
  - rewrite deposit_check_eq.
    destruct (value_refused TESTCASE (check_value (heap check))) eqn:R; [exact S|].
    destruct (payee_mismatch lower (__name s) (heap check)
              && negb (bug TESTCASE BUG_DEPOSIT_ANY_PAYEE))%bool; [exact S|].
    destruct (Py.contains check (__deposited_checks s)
              && negb (bug TESTCASE BUG_DUPLICATE_CHECK))%bool; [exact S|].
    cbn [snd]. pose proof (accepted_nonneg _ _ R N) as P.
    destruct S as [S1 S2 S3 S4]. split; cbn; try assumption.
    + apply add_nonneg; assumption.
    + apply Forall_app. split; [exact S3 | constructor; [exact P | constructor]].
    + apply incl_app; [apply incl_appl, S4 | apply incl_appr, incl_refl].
Qed.

Lemma step_sound (TESTCASE : Z) (heap : ref -> Check) (lower : string -> string)
      (s : BankAccount) (o : op) :
  sound heap s -> admissible heap o -> sound heap (step TESTCASE heap lower s o).
Proof.
  intros S A. destruct o as [money|check|amount]; simpl in *.
  - apply deposit_sound; assumption.
  - apply clear_check_sound; assumption.
  - apply withdraw_sound; assumption.
Qed.

Lemma run_sound (TESTCASE : Z) (heap : ref -> Check) (lower : string -> string)
      (ops : list op) (s : BankAccount) :
  sound heap s -> Forall (admissible heap) ops ->
  sound heap (run TESTCASE heap lower s ops).
Proof.
  revert s. induction ops as [|o ops IH]; intros s S F; simpl; [exact S|].
  inversion F; subst. apply IH; [apply step_sound; assumption | assumption].
Qed.

Lemma balance_value_total (TESTCASE : Z) (heap : ref -> Check) (s : BankAccount) :
  TESTCASE <> BUG_BALANCE_EXCLUDES_HOLDS ->
  balance_value TESTCASE heap s = __balance s.
Proof.
  intro N. unfold balance_value, outcome_of, balance. run_monad.
  rewrite (bug_off TESTCASE _ N). cbn. apply sub_zero.
Qed.

Lemma Forall_prefix {A : Type} (P : A -> Prop) (n : nat) (l : list A) :
  Forall P l -> Forall P (firstn n l).
Proof.
  revert l. induction n as [|n IH]; intros l F; simpl; [constructor|].
  destruct F as [|x l Hx F]; constructor; [exact Hx | apply IH, F].
Qed.

(** C2.  From a fresh account, after any sequence of calls of [deposit],
    [clear_check] and [withdraw] whose amounts are numbers (no deposit of
    NaN, no withdrawal of an infinity or of NaN), and after every prefix of
    it: [total_balance] is at least [0] (and is not NaN), the pending checks
    are among the deposited ones, [available()] is at least [0] and, unless
    [BUG_BALANCE_EXCLUDES_HOLDS] is selected, [available()] is at most
    [balance()].  The calls that fail are part of the sequence. *)
Theorem reachable_invariant (TESTCASE : Z) (heap : ref -> Check)
        (lower : string -> string) (name : string) (minb : float)
        (s0 : BankAccount) (ops : list op) (n : nat) :
  new_account name minb = Ok s0 ->
  Forall (admissible heap) ops ->
  let s := run TESTCASE heap lower s0 (firstn n ops) in
  Py.le 0 (__balance s) = true /\
  incl (__pending_checks s) (__deposited_checks s) /\
  Py.le 0 (available_value TESTCASE heap s) = true /\
  (TESTCASE <> BUG_BALANCE_EXCLUDES_HOLDS ->
   Py.le (available_value TESTCASE heap s) (balance_value TESTCASE heap s) = true).
Proof.
  intros New F s.
  assert (S : sound heap s).
  { apply run_sound; [apply (new_account_sound heap name minb), New|].
    apply Forall_prefix, F. }
  split; [exact (sound_balance heap s S)|].
  split; [exact (sound_subset heap s S)|].
  split; [apply available_value_nonneg|].
  intro N. rewrite (balance_value_total TESTCASE heap s N).
  apply available_le_total, S.
Qed.

(** * The rest of the account class *)

(** ** Sequences of calls *)

Lemma run_cons (TESTCASE : Z) (heap : ref -> Check) (lower : string -> string)
      (s : BankAccount) (o : op) (ops : list op) :
  run TESTCASE heap lower s (o :: ops)
  = run TESTCASE heap lower (step TESTCASE heap lower s o) ops.
Proof. reflexivity. Qed.

(** What every transition preserves holds along a sequence of calls. *)
Lemma run_preserved (TESTCASE : Z) (heap : ref -> Check) (lower : string -> string)
      (P : BankAccount -> Prop) :
  (forall s s', P s -> transition TESTCASE heap lower s s' -> P s') ->
  forall ops s, P s -> P (run TESTCASE heap lower s ops).
Proof.
  intros Step ops. induction ops as [|o ops IH]; intros s H.
  - exact H.
  - rewrite run_cons. apply IH. apply (Step s _ H), step_transition.
Qed.

Lemma transition_owner (TESTCASE : Z) (heap : ref -> Check) (lower : string -> string)
      (s s' : BankAccount) :
  transition TESTCASE heap lower s s' ->
  __name s' = __name s /\ __min_balance s' = __min_balance s.
Proof.
  intro T. destruct T; split; reflexivity.
Qed.

(** ** The owner and the minimum balance *)

(** X2.  In the account that any sequence of calls makes of
    [BankAccount(name, min_balance)], whichever defect is selected,
    [account_name] still returns [name], [min_balance] still returns
    [min_balance], and [str] gives [name] followed by " Account"; none of
    the three changes the account. *)
Theorem owner_and_minimum_fixed
        (TESTCASE : Z) (heap : ref -> Check) (lower : string -> string)
        (name : string) (minb : float) (s0 : BankAccount) (ops : list op) :
  new_account name minb = Ok s0 ->
  account_name (run TESTCASE heap lower s0 ops)
  = (Ok name, run TESTCASE heap lower s0 ops) /\
  min_balance (run TESTCASE heap lower s0 ops)
  = (Ok minb, run TESTCASE heap lower s0 ops) /\
  __str__ (run TESTCASE heap lower s0 ops)
  = (Ok (name ++ " Account")%string, run TESTCASE heap lower s0 ops).
Proof.
  intro H. apply new_account_inv in H. destruct H as [-> _].
  assert (K : __name (run TESTCASE heap lower (mkAccount name 0 minb [] []) ops) = name /\
              __min_balance (run TESTCASE heap lower (mkAccount name 0 minb [] []) ops)
              = minb).
  { apply (run_preserved TESTCASE heap lower
             (fun s => __name s = name /\ __min_balance s = minb)).
    - intros s s' [E1 E2] T. destruct (transition_owner _ _ _ _ _ T) as [F1 F2].
      split; congruence.
    - split; reflexivity. }
  destruct K as [K1 K2].
  unfold __str__, account_name, min_balance. run_monad.
  rewrite K1, K2. repeat split; reflexivity.
Qed.

(** ** Deposits that fail, deposits that succeed *)

Lemma deposit_value_refused (TESTCASE : Z) (heap : ref -> Check)
      (lower : string -> string) (money : deposit_arg) (s : BankAccount) :
  value_refused TESTCASE (value heap money) = true ->
  deposit TESTCASE heap lower money s
  = (Raise (Py.ValueError MSG_DEPOSIT_NOT_POSITIVE), s).
Proof.
  intro R. destruct money as [m|r]; cbn [value] in R.
  - rewrite deposit_cash_eq, R. reflexivity.
  - rewrite deposit_check_eq, R. reflexivity.
Qed.

(** X3.  A deposit of a negative value, and unless the defect
    [BUG_DEPOSIT_ZERO] is selected a deposit of value zero, raises the
    [ValueError] "Value to deposit must be positive." and leaves the account
    as it was.  For a check this test comes before the tests of the payee and
    of the checks on record: it is the error a worthless check gets, whoever
    its payee is and whether or not it was deposited before. *)
Theorem deposit_not_positive
        (TESTCASE : Z) (heap : ref -> Check) (lower : string -> string)
        (money : deposit_arg) (s : BankAccount) :
  Py.lt (value heap money) 0 = true \/
  (Py.le (value heap money) 0 = true /\ TESTCASE <> BUG_DEPOSIT_ZERO) ->
  deposit TESTCASE heap lower money s
  = (Raise (Py.ValueError MSG_DEPOSIT_NOT_POSITIVE), s).
Proof.
  intro H. apply deposit_value_refused. unfold value_refused.
  destruct H as [N|[L N]].
  - rewrite (lt_le _ _ N), (lt_not_eq _ _ N). reflexivity.
  - rewrite L, (bug_off TESTCASE _ N), andb_false_r. reflexivity.
Qed.

(** X4.  Whichever defect is selected, a call of [deposit] or of
    [clear_check] that raises leaves the account exactly as it was: owner,
    minimum, balance and both lists of checks. *)
Theorem failed_calls_change_nothing
        (TESTCASE : Z) (heap : ref -> Check) (lower : string -> string)
        (s : BankAccount) :
  (forall money e s',
     deposit TESTCASE heap lower money s = (Raise e, s') -> s' = s) /\
  (forall check e s', clear_check TESTCASE heap check s = (Raise e, s') -> s' = s).
Proof.
  split.
  - intros [m|r] e s'.
    + rewrite deposit_cash_eq.
      destruct (value_refused TESTCASE (money_value m));
        intro H; inversion H; reflexivity.
    + rewrite deposit_check_eq.
      destruct (value_refused TESTCASE (check_value (heap r)));
        [intro H; inversion H; reflexivity|].
      destruct (payee_mismatch lower (__name s) (heap r)
                && negb (bug TESTCASE BUG_DEPOSIT_ANY_PAYEE))%bool;
        [intro H; inversion H; reflexivity|].
      destruct (Py.contains r (__deposited_checks s)
                && negb (bug TESTCASE BUG_DUPLICATE_CHECK))%bool;
        intro H; inversion H; reflexivity.
  - intros check e s'. rewrite clear_check_eq.
    destruct (Py.contains check (__pending_checks s)).
    + destruct (Py.remove check (__pending_checks s));
        intro H; inversion H; reflexivity.
    + destruct (bug TESTCASE BUG_CLEAR_ANY_CHECK);
        intro H; inversion H; reflexivity.
Qed.

(** X6.  With none of the defects [BUG_DEPOSIT_ZERO], [BUG_DUPLICATE_CHECK]
    and [BUG_DEPOSIT_ANY_PAYEE] selected, the deposit of a check succeeds
    exactly when the test [value <= 0] is false (the value is positive, or
    NaN, which no comparison holds of), its payee is empty, absent or maps
    to the same string as the owner's name under [str.lower], and the check
    is not in [deposited_checks]. *)
Theorem deposit_check_accepted_iff
        (TESTCASE : Z) (heap : ref -> Check) (lower : string -> string)
        (s : BankAccount) (check : ref) :
  TESTCASE <> BUG_DEPOSIT_ZERO ->
  TESTCASE <> BUG_DUPLICATE_CHECK ->
  TESTCASE <> BUG_DEPOSIT_ANY_PAYEE ->
  ((exists s', deposit TESTCASE heap lower (ACheck check) s = (Ok tt, s')) <->
   (Py.le (check_value (heap check)) 0 = false /\
    (Py.truthy (payee (heap check)) = false \/
     lower (Py.str (payee (heap check))) = lower (__name s)) /\
    ~ In check (__deposited_checks s))).
Proof.
  intros N3 N5 N6.
  assert (Pm : payee_mismatch lower (__name s) (heap check) = false <->
               (Py.truthy (payee (heap check)) = false \/
                lower (Py.str (payee (heap check))) = lower (__name s))).
  { unfold payee_mismatch.
    destruct (Py.truthy (payee (heap check))); cbn [andb].
    - rewrite negb_false_iff, String.eqb_eq. split; [auto|].
      intros [H|H]; [discriminate | exact H].
    - split; auto. }
  assert (Vr : value_refused TESTCASE (check_value (heap check))
               = Py.le (check_value (heap check)) 0).
  { unfold value_refused. rewrite (bug_off TESTCASE _ N3), andb_false_r.
    apply andb_true_r. }
  rewrite deposit_check_eq, Vr.
  rewrite (bug_off TESTCASE BUG_DUPLICATE_CHECK N5),
          (bug_off TESTCASE BUG_DEPOSIT_ANY_PAYEE N6).
  cbn [negb]. rewrite !andb_true_r.
  split.
  - intros [s' H].
    destruct (Py.le (check_value (heap check)) 0) eqn:R; [discriminate|].
    destruct (payee_mismatch lower (__name s) (heap check)) eqn:P; [discriminate|].
    destruct (Py.contains check (__deposited_checks s)) eqn:C; [discriminate|].
    split; [reflexivity|]. split.
    + apply Pm. reflexivity.
    + apply contains_not_In, C.
  - intros [P [Hp Hn]]. rewrite P.
    apply Pm in Hp. rewrite Hp. apply contains_not_In in Hn. rewrite Hn.
    eexists. reflexivity.
Qed.

(** ** The life of a check *)

Lemma transition_deposited (TESTCASE : Z) (heap : ref -> Check)
      (lower : string -> string) (s s' : BankAccount) :
  transition TESTCASE heap lower s s' ->
  exists l, __deposited_checks s' = __deposited_checks s ++ l.
Proof.
  intro T. destruct T as [|v R|r _ _|r l C R|a P L];
    cbn [with_balance with_check with_pending __deposited_checks].
  - exists []. symmetry. apply app_nil_r.
  - exists []. symmetry. apply app_nil_r.
  - exists [r]. reflexivity.
  - exists []. symmetry. apply app_nil_r.
  - exists []. symmetry. apply app_nil_r.
Qed.

Lemma recorded_step (TESTCASE : Z) (heap : ref -> Check) (lower : string -> string)
      (s : BankAccount) (o : op) :
  __deposited_checks (step TESTCASE heap lower s o)
  = __deposited_checks s ++ recorded TESTCASE heap lower s [o].
Proof.
  cbn [recorded]. rewrite app_nil_r.
  destruct o as [[m|r]|r|a]; unfold step, state_after, outcome_of.
  - rewrite deposit_cash_eq.
    destruct (value_refused TESTCASE (money_value m)); simpl;
      symmetry; apply app_nil_r.
  - rewrite deposit_check_eq.
    destruct (value_refused TESTCASE (check_value (heap r)));
      [simpl; symmetry; apply app_nil_r|].
    destruct (payee_mismatch lower (__name s) (heap r)
              && negb (bug TESTCASE BUG_DEPOSIT_ANY_PAYEE))%bool;
      [simpl; symmetry; apply app_nil_r|].
    destruct (Py.contains r (__deposited_checks s)
              && negb (bug TESTCASE BUG_DUPLICATE_CHECK))%bool;
      [simpl; symmetry; apply app_nil_r | reflexivity].
  - rewrite clear_check_eq.
    destruct (Py.contains r (__pending_checks s)).
    + destruct (Py.remove r (__pending_checks s)); simpl;
        symmetry; apply app_nil_r.
    + destruct (bug TESTCASE BUG_CLEAR_ANY_CHECK); simpl;
        symmetry; apply app_nil_r.
  - rewrite withdraw_eq.
    destruct (Py.le a 0); [simpl; symmetry; apply app_nil_r|].
    destruct (Py.lt (available_value TESTCASE heap s) a).
    + destruct (bug TESTCASE BUG_WITHDRAW_FAILS_SILENTLY); simpl;
        symmetry; apply app_nil_r.
    + destruct (Py.eq a (available_value TESTCASE heap s)
                && bug TESTCASE BUG_CANT_WITHDRAW_AVAILABLE)%bool; simpl;
        symmetry; apply app_nil_r.
Qed.

(** X15.  [deposited_checks] only grows, and only at its end: after any
    sequence of calls, whichever defect is selected, the list is the one
    before the calls followed by exactly the checks whose deposit returned
    during the sequence, in the order of those calls.  Nothing is removed,
    reordered or recorded by a call that raised. *)
Theorem deposited_checks_append_only
        (TESTCASE : Z) (heap : ref -> Check) (lower : string -> string)
        (s : BankAccount) (ops : list op) :
  __deposited_checks (run TESTCASE heap lower s ops)
  = __deposited_checks s ++ recorded TESTCASE heap lower s ops.
Proof.
  revert s. induction ops as [|o ops IH]; intro s.
  - simpl. symmetry. apply app_nil_r.
  - rewrite run_cons, IH, recorded_step. cbn [recorded].
    rewrite app_nil_r, <- app_assoc. reflexivity.
Qed.

Lemma status_cases (s : BankAccount) (check : ref) :
  (status s check = Pending /\ In check (__pending_checks s)) \/
  (status s check = Cleared /\ ~ In check (__pending_checks s)
   /\ In check (__deposited_checks s)) \/
  (status s check = Absent /\ ~ In check (__pending_checks s)
   /\ ~ In check (__deposited_checks s)).
Proof.
  unfold status.
  destruct (Py.contains check (__pending_checks s)) eqn:P.
  - left. split; [reflexivity | apply contains_In, P].
  - apply contains_not_In in P.
    destruct (Py.contains check (__deposited_checks s)) eqn:D.
    + right. left. apply contains_In in D. auto.
    + right. right. apply contains_not_In in D. auto.
Qed.

Lemma status_transition (TESTCASE : Z) (heap : ref -> Check) (lower : string -> string)
      (s s' : BankAccount) (check : ref) :
  TESTCASE <> BUG_DUPLICATE_CHECK ->
  incl (__pending_checks s) (__deposited_checks s) ->
  transition TESTCASE heap lower s s' ->
  (stage (status s check) <= stage (status s' check))%nat.
Proof.
  intros N Sub T.
  destruct (status_cases s check) as [[E I]|[[E [Np I]]|[E _]]]; rewrite E;
    [| |simpl; lia].
  - (* pending: still on record afterwards *)
    assert (D' : In check (__deposited_checks s')).
    { destruct (transition_deposited _ _ _ _ _ T) as [l ->].
      apply in_or_app. left. apply Sub, I. }
    destruct (status_cases s' check) as [[E' _]|[[E' _]|[_ [_ A]]]];
      [rewrite E'; simpl; lia | rewrite E'; simpl; lia | tauto].
  - (* cleared: never pending again *)
    assert (D' : In check (__deposited_checks s')).
    { destruct (transition_deposited _ _ _ _ _ T) as [l ->].
      apply in_or_app. left. exact I. }
    assert (P' : ~ In check (__pending_checks s')).
    { destruct T as [|v R|r _ Fresh|r l C R|a P L];
        cbn [with_balance with_check with_pending __pending_checks];
        try exact Np.
      - rewrite in_app_iff. simpl. intros [H|[H|[]]]; [tauto|].
        subst r. apply N, Fresh, I.
      - intro H. apply Np. apply (remove_subset _ _ _ R). exact H. }
    destruct (status_cases s' check) as [[_ A]|[[E' _]|[_ [_ A]]]];
      [tauto | rewrite E'; simpl; lia | tauto].
Qed.

(** X16.  Unless the defect [BUG_DUPLICATE_CHECK] is selected, a check only
    moves forward in a reachable account: from absent to pending to cleared.
    Whatever is called, a pending check does not leave the record and a
    cleared check never becomes pending again. *)
Theorem check_status_moves_forward
        (TESTCASE : Z) (heap : ref -> Check) (lower : string -> string)
        (s : BankAccount) (ops : list op) (check : ref) :
  TESTCASE <> BUG_DUPLICATE_CHECK ->
  reachable TESTCASE heap lower s ->
  (stage (status s check)
   <= stage (status (run TESTCASE heap lower s ops) check))%nat.
Proof.
  intros N R. revert s R. induction ops as [|o ops IH]; intros s R.
  - simpl. lia.
  - rewrite run_cons.
    pose proof (distinct_subset s (reachable_distinct TESTCASE heap lower s N R)) as Sub.
    pose proof (status_transition TESTCASE heap lower s _ check N Sub
                  (step_transition TESTCASE heap lower s o)) as H1.
    pose proof (IH _ (reach_step TESTCASE heap lower s o R)) as H2.
    lia.
Qed.

(** ** The selector of defects *)

Lemma available_value_defect_free (TESTCASE : Z) (heap : ref -> Check) (s : BankAccount) :
  defect_free TESTCASE ->
  available_value TESTCASE heap s = available_value NO_DEFECTS heap s.
Proof.
  intros [_ [_ [_ [_ [_ [_ [_ [N9 N10]]]]]]]].
  rewrite !available_value_unclamped. unfold unclamped.
  rewrite (bug_off TESTCASE _ N9), (bug_off TESTCASE _ N10). reflexivity.
Qed.

(** X18.  The selector only matters through the nine numbers of the
    defects: for every other value of [TESTCASE] (the default 0, 8, any
    other integer) the two queries and the three mutators return and change
    exactly what they do for [NO_DEFECTS]. *)
Theorem defect_free_behaviour
        (TESTCASE : Z) (heap : ref -> Check) (lower : string -> string)
        (s : BankAccount) :
  defect_free TESTCASE ->
  available TESTCASE heap s = available NO_DEFECTS heap s /\
  balance TESTCASE heap s = balance NO_DEFECTS heap s /\
  (forall money, deposit TESTCASE heap lower money s
                 = deposit NO_DEFECTS heap lower money s) /\
  (forall check, clear_check TESTCASE heap check s
                 = clear_check NO_DEFECTS heap check s) /\
  (forall amount, withdraw TESTCASE heap amount s
                  = withdraw NO_DEFECTS heap amount s).
Proof.
  intro D. pose proof (available_value_defect_free TESTCASE heap s D) as A.
  destruct D as [N1 [N2 [N3 [N4 [N5 [N6 [N7 [N9 N10]]]]]]]].
  split; [|split; [|split; [|split]]].
  - rewrite !available_run, A. reflexivity.
  - rewrite !balance_run, !balance_value_eq, (bug_off TESTCASE _ N7). reflexivity.
  - intros [m|r].
    + rewrite !deposit_cash_eq. unfold value_refused.
      rewrite (bug_off TESTCASE _ N3). reflexivity.
    + rewrite !deposit_check_eq. unfold value_refused.
      rewrite (bug_off TESTCASE _ N3), (bug_off TESTCASE _ N5),
              (bug_off TESTCASE _ N6). reflexivity.
  - intro check. rewrite !clear_check_eq, (bug_off TESTCASE _ N4). reflexivity.
  - intro amount. rewrite !withdraw_eq, A,
      (bug_off TESTCASE _ N1), (bug_off TESTCASE _ N2). reflexivity.
Qed.

(** ** Reading the configuration *)

(** X19.  [config] reads the variable when it is set to a non-empty text
    and the default otherwise, an empty variable counting as unset; when the
    text it settles on is not empty, the result is that text, passed through
    the cast when there is one (and the cast's exception, when it raises). *)
Theorem config_effective_text
        {A : Type} (env : environ) (envvar default v : string)
        (cast : option (string -> outcome A)) :
  v <> EmptyString ->
  env envvar = Some v \/
  (Py.truthy (env envvar) = false /\ default = v) ->
  config env envvar default cast =
  match cast with
  | Some f => match f v with
              | Ok a => Ok (Converted a)
              | Raise e => Raise e
              end
  | None => Ok (Text v)
  end.
Proof.
  intros Nv H. destruct v as [|c t]; [congruence|]. unfold config.
  destruct H as [E|[F E]].
  - rewrite E. destruct cast; reflexivity.
  - subst default. destruct (env envvar) as [[|c' t']|];
      [|discriminate F|]; destruct cast; reflexivity.
Qed.

(** X20.  When the variable is unset or empty and the default is empty,
    [config] returns what the environment gave, [None] or the empty text,
    and does not call the cast: it does not raise, whatever the cast would
    do. *)
Theorem config_nothing_to_cast
        {A : Type} (env : environ) (envvar : string)
        (cast : option (string -> outcome A)) :
  Py.truthy (env envvar) = false ->
  config env envvar EmptyString cast = Ok (uncast (env envvar)) /\
  (env envvar = None \/ env envvar = Some EmptyString).
Proof.
  intro F. split.
  - unfold config.
    destruct (env envvar) as [[|c t]|]; [|discriminate F|];
      destruct cast; reflexivity.
  - destruct (env envvar) as [[|c t]|]; [right; reflexivity | discriminate | left; reflexivity].
Qed.

(** ** Withdrawals that pay *)

(** X7.  An amount above [0] and not above the available balance is paid
    out: [withdraw] returns a [Money] of that amount and puts the total
    balance at the float difference [total_balance - amount], changing
    nothing else.  With [BUG_CANT_WITHDRAW_AVAILABLE] selected this holds of
    the amounts strictly below the available balance. *)
Theorem withdraw_within_available
        (TESTCASE : Z) (heap : ref -> Check) (s : BankAccount) (a av : float) :
  available TESTCASE heap s = (Ok av, s) ->
  Py.lt 0 a = true ->
  Py.le a av = true ->
  Py.lt a av = true \/ TESTCASE <> BUG_CANT_WITHDRAW_AVAILABLE ->
  withdraw TESTCASE heap a s
  = (Ok (Some (mkMoney a)), with_balance s (__balance s - a)).
Proof.
  intros Hav P L D. apply available_inv in Hav. destruct Hav as [-> _].
  rewrite withdraw_eq.
  assert (L0 : Py.le a 0 = false) by (clear L D; float_order).
  assert (G : Py.lt (available_value TESTCASE heap s) a = false)
    by (clear P D L0; float_order).
  rewrite L0, G.
  assert (B : (Py.eq a (available_value TESTCASE heap s)
               && bug TESTCASE BUG_CANT_WITHDRAW_AVAILABLE)%bool = false).
  { destruct D as [D|D].
    - rewrite (lt_not_eq _ _ D). reflexivity.
    - rewrite (bug_off TESTCASE _ D). apply andb_false_r. }
  rewrite B. reflexivity.
Qed.

Lemma withdraw_paid_inv (TESTCASE : Z) (heap : ref -> Check) (s s' : BankAccount)
      (a : float) (m : Money) :
  withdraw TESTCASE heap a s = (Ok (Some m), s') ->
  m = mkMoney a /\
  Py.le a 0 = false /\
  Py.lt (available_value TESTCASE heap s) a = false /\
  s' = with_balance s (__balance s - a).
Proof.
  rewrite withdraw_eq.
  destruct (Py.le a 0) eqn:P; [discriminate|].
  destruct (Py.lt (available_value TESTCASE heap s) a) eqn:L.
  { destruct (bug TESTCASE BUG_WITHDRAW_FAILS_SILENTLY); discriminate. }
  destruct (Py.eq a (available_value TESTCASE heap s)
            && bug TESTCASE BUG_CANT_WITHDRAW_AVAILABLE)%bool; [discriminate|].
  intro H. inversion H. auto.
Qed.

(** X8.  Whichever defect is selected, when [withdraw] returns a [Money] it
    is a [Money] of the amount asked for, the tests [amount <= 0] and
    [available() < amount] were both false, the total balance is the float
    difference [total_balance - amount] and nothing else has changed.  For an
    amount that is a number the two tests say that it is above [0] and at
    most what [available] returned; NaN passes both. *)
Theorem withdraw_paid_only_within_available
        (TESTCASE : Z) (heap : ref -> Check) (s s' : BankAccount) (a : float)
        (m : Money) :
  withdraw TESTCASE heap a s = (Ok (Some m), s') ->
  m = mkMoney a /\
  Py.le a 0 = false /\
  (exists av, available TESTCASE heap s = (Ok av, s) /\ Py.lt av a = false /\
              (Py.isnan a = false -> Py.lt 0 a = true /\ Py.le a av = true)) /\
  s' = with_balance s (__balance s - a).
Proof.
  intro H. destruct (withdraw_paid_inv _ _ _ _ _ _ H) as [Em [P [L Es]]].
  split; [exact Em|]. split; [exact P|]. split; [|exact Es].
  exists (available_value TESTCASE heap s).
  split; [apply available_run|]. split; [exact L|].
  intro N. apply isnan_false in N.
  pose proof (available_value_nonneg TESTCASE heap s) as A0.
  split.
  - clear L A0. float_order.
  - clear P. float_order.
Qed.

(** ** The movements of money *)

Lemma balance_step (TESTCASE : Z) (heap : ref -> Check) (lower : string -> string)
      (s : BankAccount) (o : op) :
  __balance (step TESTCASE heap lower s o)
  = post (__balance s) (movement_of TESTCASE heap lower s o).
Proof.
  destruct o as [[m|r]|r|a]; unfold step, movement_of, state_after, outcome_of.
  - rewrite deposit_cash_eq.
    destruct (value_refused TESTCASE (money_value m)); reflexivity.
  - rewrite deposit_check_eq.
    destruct (value_refused TESTCASE (check_value (heap r))); [reflexivity|].
    destruct (payee_mismatch lower (__name s) (heap r)
              && negb (bug TESTCASE BUG_DEPOSIT_ANY_PAYEE))%bool; [reflexivity|].
    destruct (Py.contains r (__deposited_checks s)
              && negb (bug TESTCASE BUG_DUPLICATE_CHECK))%bool; reflexivity.
  - rewrite clear_check_eq.
    destruct (Py.contains r (__pending_checks s)).
    + destruct (Py.remove r (__pending_checks s)); reflexivity.
    + destruct (bug TESTCASE BUG_CLEAR_ANY_CHECK); reflexivity.
  - rewrite withdraw_eq.
    destruct (Py.le a 0); [reflexivity|].
    destruct (Py.lt (available_value TESTCASE heap s) a).
    + destruct (bug TESTCASE BUG_WITHDRAW_FAILS_SILENTLY); reflexivity.
    + destruct (Py.eq a (available_value TESTCASE heap s)
                && bug TESTCASE BUG_CANT_WITHDRAW_AVAILABLE)%bool; reflexivity.
Qed.

(** X17.  Whichever defect is selected, the total balance after any sequence
    of calls is the balance before with the movements of the sequence posted
    to it in the order of the calls, each by a float addition or
    subtraction: the values of the deposits that returned and the amounts of
    the [Money] objects that [withdraw] returned.  The calls that raise, the
    withdrawals that return [None] and [clear_check] move nothing. *)
Theorem balance_conserved
        (TESTCASE : Z) (heap : ref -> Check) (lower : string -> string)
        (s : BankAccount) (ops : list op) :
  __balance (run TESTCASE heap lower s ops)
  = ledger TESTCASE heap lower s ops (__balance s).
Proof.
  revert s. induction ops as [|o ops IH]; intro s.
  - reflexivity.
  - rewrite run_cons, IH. cbn [ledger]. rewrite balance_step. reflexivity.
Qed.

(** * The sample account *)

(** ** The scenarios of the specification, by evaluation *)

Example new_bob : new_account "Bob" 50 = Ok bob_account.
Proof. reflexivity. Qed.

Example new_negative_minimum :
  new_account "Bob" (-1)
  = Raise (Py.AssertionError "min balance parameter must not be negative").
Proof. reflexivity. Qed.

Example new_nan_minimum :
  new_account "Bob" nan
  = Raise (Py.AssertionError "min balance parameter must not be negative").
Proof. reflexivity. Qed.

Example run_cash :
  run 0 sample_heap Py.ascii_lower bob_account [Deposit (Cash (mkMoney 200))]
  = bob_with_cash.
Proof. reflexivity. Qed.

Example run_check :
  run 0 sample_heap Py.ascii_lower bob_account
      [Deposit (Cash (mkMoney 200)); Deposit (ACheck 0%nat)]
  = bob_with_check.
Proof. reflexivity. Qed.

Example run_cleared :
  run 0 sample_heap Py.ascii_lower bob_account
      [Deposit (Cash (mkMoney 200)); Deposit (ACheck 0%nat); ClearCheck 0%nat]
  = bob_cleared.
Proof. reflexivity. Qed.

Example run_sample :
  run 0 sample_heap Py.ascii_lower bob_account sample_calls
  = mkAccount "Bob" 200 50 [] [0%nat].
Proof. reflexivity. Qed.

(** Minimum balance 50, cash 200: balance 200, available 150; withdrawing
    150 succeeds and leaves nothing available; withdrawing 1 more fails. *)
Example scenario_minimum_balance :
  balance 0 sample_heap bob_with_cash = (Ok 200, bob_with_cash) /\
  available 0 sample_heap bob_with_cash = (Ok 150, bob_with_cash) /\
  withdraw 0 sample_heap 150 bob_with_cash
  = (Ok (Some (mkMoney 150)), mkAccount "Bob" 50 50 [] []) /\
  available 0 sample_heap (mkAccount "Bob" 50 50 [] [])
  = (Ok 0, mkAccount "Bob" 50 50 [] []) /\
  withdraw 0 sample_heap 1 (mkAccount "Bob" 50 50 [] [])
  = (Raise (Py.ValueError MSG_EXCEEDS), mkAccount "Bob" 50 50 [] []).
Proof. repeat split; reflexivity. Qed.

(** A check payable to "Alice" is refused by Bob's account. *)
Example scenario_wrong_payee :
  deposit 0 sample_heap Py.ascii_lower (ACheck 1%nat) bob_account
  = (Raise (Py.CheckError "Check payee Alice is not account owner"), bob_account).
Proof. reflexivity. Qed.

(** A check counts for the balance at once and for the available balance
    once it is cleared. *)
Example scenario_check_hold :
  deposit 0 sample_heap Py.ascii_lower (ACheck 0%nat) bob_fresh
  = (Ok tt, mkAccount "Bob" 100 0 [0%nat] [0%nat]) /\
  available 0 sample_heap (mkAccount "Bob" 100 0 [0%nat] [0%nat])
  = (Ok 0, mkAccount "Bob" 100 0 [0%nat] [0%nat]) /\
  clear_check 0 sample_heap 0%nat (mkAccount "Bob" 100 0 [0%nat] [0%nat])
  = (Ok tt, mkAccount "Bob" 100 0 [] [0%nat]) /\
  available 0 sample_heap (mkAccount "Bob" 100 0 [] [0%nat])
  = (Ok 100, mkAccount "Bob" 100 0 [] [0%nat]).
Proof. repeat split; reflexivity. Qed.

(** ** Floating point at the sample account *)

(** The account of minimum 0.1 that holds 1.1: [available] returns the
    float [1.1 - 0.1], which is 1; the difference of the two numbers that
    the floats 1.1 and 0.1 stand for is not 1. *)
Example available_is_rounded :
  available 0 sample_heap bob_tenths = (Ok 1, bob_tenths) /\
  ~ (exact 1 == exact_available sample_heap bob_tenths)%Q.
Proof.
  split; [reflexivity|]. vm_compute. discriminate.
Qed.

(** Two deposits of 1e308 put the balance at infinity, and all of it is
    available. *)
Example run_overflow :
  run 0 sample_heap Py.ascii_lower bob_fresh
      [Deposit (Cash (mkMoney 1e308)); Deposit (Cash (mkMoney 1e308))]
  = bob_overflow /\
  available 0 sample_heap bob_overflow = (Ok infinity, bob_overflow).
Proof. split; reflexivity. Qed.

(** [withdraw] and [deposit] let NaN through their tests, which are
    comparisons. *)
Example withdraw_nan :
  withdraw 0 sample_heap nan bob_with_cash
  = (Ok (Some (mkMoney nan)), mkAccount "Bob" nan 50 [] []).
Proof. reflexivity. Qed.

Example deposit_nan :
  deposit 0 sample_heap Py.ascii_lower (Cash (mkMoney nan)) bob_with_cash
  = (Ok tt, mkAccount "Bob" nan 50 [] []).
Proof. reflexivity. Qed.

(** With [BUG_BALANCE_EXCLUDES_HOLDS] selected, [balance] subtracts the
    pending checks, and the rounding of a withdrawal can leave less than
    they are worth: a check of 0.1, cash of 0.6, the 0.6 withdrawn; then
    [balance] returns a number below [0], and below what [available]
    returns, which is [0]. *)
Example defect_balance_below_available :
  available BUG_BALANCE_EXCLUDES_HOLDS tenth_heap
            (run BUG_BALANCE_EXCLUDES_HOLDS tenth_heap Py.ascii_lower bob_fresh
                 [Deposit (ACheck 0%nat); Deposit (Cash (mkMoney 0.6))])
  = (Ok 0.6, mkAccount "Bob" 0.7 0 [0%nat] [0%nat]) /\
  Py.lt (balance_value BUG_BALANCE_EXCLUDES_HOLDS tenth_heap
           (run BUG_BALANCE_EXCLUDES_HOLDS tenth_heap Py.ascii_lower bob_fresh
                tenth_calls)) 0 = true /\
  available_value BUG_BALANCE_EXCLUDES_HOLDS tenth_heap
    (run BUG_BALANCE_EXCLUDES_HOLDS tenth_heap Py.ascii_lower bob_fresh tenth_calls)
  = 0.
Proof. repeat split; reflexivity. Qed.

(** ** What the specification says beyond the code *)

(** C2, the counterexample.  Two deposits of 1e308 on a fresh account, then
    the withdrawal of what [available] returns: the account is reachable,
    its [total_balance] is [inf - inf], which is NaN, and [0 <= total_balance]
    is false. *)
Lemma reachable_invariant_counterexample :
  new_account "Bob" 0 = Ok bob_fresh /\
  available 0 sample_heap
            (run 0 sample_heap Py.ascii_lower bob_fresh
                 [Deposit (Cash (mkMoney 1e308)); Deposit (Cash (mkMoney 1e308))])
  = (Ok infinity, bob_overflow) /\
  reachable 0 sample_heap Py.ascii_lower
            (run 0 sample_heap Py.ascii_lower bob_fresh
                 [Deposit (Cash (mkMoney 1e308)); Deposit (Cash (mkMoney 1e308));
                  Withdraw infinity]) /\
  Py.le 0 (__balance
             (run 0 sample_heap Py.ascii_lower bob_fresh
                  [Deposit (Cash (mkMoney 1e308)); Deposit (Cash (mkMoney 1e308));
                   Withdraw infinity])) = false.
Proof.
  split; [reflexivity|]. split; [reflexivity|]. split; [|reflexivity].
  apply reachable_run. apply (reach_new 0 sample_heap Py.ascii_lower "Bob" 0).
  reflexivity.
Qed.

(** C3, the counterexample.  The account of minimum 0.1 that holds 1.1 has
    1 available; [withdraw(1)] pays and leaves a balance of [1.1 - 1], and
    then [available] returns [(1.1 - 1) - 0.1], a float above [0]. *)
Lemma withdraw_exactly_available_counterexample :
  available 0 sample_heap bob_tenths = (Ok 1, bob_tenths) /\
  withdraw 0 sample_heap 1 bob_tenths
  = (Ok (Some (mkMoney 1)), with_balance bob_tenths (1.1 - 1)) /\
  available 0 sample_heap (with_balance bob_tenths (1.1 - 1))
  = (Ok (1.1 - 1 - 0.1), with_balance bob_tenths (1.1 - 1)) /\
  Py.lt 0 (1.1 - 1 - 0.1) = true /\
  Py.eq (1.1 - 1 - 0.1) 0 = false.
Proof. repeat split; reflexivity. Qed.

(** C5, the counterexample.  A deposit of 1 in cash into an account that
    holds 1e16 succeeds and leaves the account as it was: [1e16 + 1] rounds
    to [1e16], and [balance] returns 1e16 before and after. *)
Lemma deposit_effect_counterexample :
  Py.lt 0 1 = true /\
  balance 0 sample_heap bob_rich = (Ok 1e16, bob_rich) /\
  deposit 0 sample_heap Py.ascii_lower (Cash (mkMoney 1)) bob_rich
  = (Ok tt, bob_rich) /\
  Py.eq (balance_value 0 sample_heap
           (state_after (deposit 0 sample_heap Py.ascii_lower (Cash (mkMoney 1)))
                        bob_rich)
         - balance_value 0 sample_heap bob_rich) 1 = false /\
  ~ (exact 1e16 + exact 1 == exact 1e16)%Q.
Proof.
  split; [reflexivity|]. split; [reflexivity|]. split; [reflexivity|].
  split; [reflexivity|]. vm_compute. discriminate.
Qed.

(** ** The theorems at the sample account *)


Lemma bob_with_check_reachable :
  reachable 0 sample_heap Py.ascii_lower bob_with_check.
Proof.
  apply (reachable_run 0 sample_heap Py.ascii_lower bob_account
           [Deposit (Cash (mkMoney 200)); Deposit (ACheck 0%nat)]).
  apply (reach_new 0 sample_heap Py.ascii_lower "Bob" 50). reflexivity.
Defined.

Lemma bob_cleared_reachable :
  reachable 0 sample_heap Py.ascii_lower bob_cleared.
Proof.
  apply (reachable_run 0 sample_heap Py.ascii_lower bob_account
           [Deposit (Cash (mkMoney 200)); Deposit (ACheck 0%nat); ClearCheck 0%nat]).
  apply (reach_new 0 sample_heap Py.ascii_lower "Bob" 50). reflexivity.
Defined.

Lemma sample_calls_admissible : Forall (admissible sample_heap) sample_calls.
Proof.
  repeat constructor.
Defined.

Lemma reachable_invariant_witness :
  new_account "Bob" 50 = Ok bob_account /\
  Forall (admissible sample_heap) sample_calls /\
  let s := run 0 sample_heap Py.ascii_lower bob_account (firstn 4 sample_calls) in
  Py.le 0 (__balance s) = true /\
  incl (__pending_checks s) (__deposited_checks s) /\
  Py.le 0 (available_value 0 sample_heap s) = true /\
  (0%Z <> BUG_BALANCE_EXCLUDES_HOLDS ->
   Py.le (available_value 0 sample_heap s) (balance_value 0 sample_heap s) = true).
Proof.
  split; [reflexivity|]. split; [exact sample_calls_admissible|].
  apply (reachable_invariant 0 sample_heap Py.ascii_lower "Bob" 50 bob_account
           sample_calls 4).
  - reflexivity.
  - exact sample_calls_admissible.
Defined.

Lemma withdraw_exactly_available_witness :
  exists s',
    withdraw 0 sample_heap 150 bob_with_cash = (Ok (Some (mkMoney 150)), s') /\
    s' = with_balance bob_with_cash (__balance bob_with_cash - 150) /\
    __balance s' = __balance bob_with_cash - 150 /\
    exists av', available 0 sample_heap s' = (Ok av', s') /\ Py.le 0 av' = true.
Proof.
  apply (withdraw_exactly_available 0 sample_heap bob_with_cash 150 150).
  - unfold BUG_CANT_WITHDRAW_AVAILABLE. lia.
  - reflexivity.
  - reflexivity.
  - reflexivity.
Defined.

Lemma withdraw_failures_witness :
  withdraw 0 sample_heap (-5) bob_with_cash
  = (Raise (Py.ValueError MSG_NOT_POSITIVE), bob_with_cash) /\
  withdraw 0 sample_heap 151 bob_with_cash
  = (Raise (Py.ValueError MSG_EXCEEDS), bob_with_cash).
Proof.
  split.
  - apply (proj1 (withdraw_failures 0 sample_heap bob_with_cash (-5))).
    reflexivity.
  - apply (proj1 (proj2 (withdraw_failures 0 sample_heap bob_with_cash 151))
             ltac:(unfold BUG_WITHDRAW_FAILS_SILENTLY; lia) 150).
    + reflexivity.
    + reflexivity.
Defined.

Lemma deposit_effect_witness :
  __balance bob_with_check = __balance bob_with_cash + 100 /\
  __name bob_with_check = __name bob_with_cash /\
  __min_balance bob_with_check = __min_balance bob_with_cash /\
  (__pending_checks bob_with_check = __pending_checks bob_with_cash ++ [0%nat] /\
   __deposited_checks bob_with_check = __deposited_checks bob_with_cash ++ [0%nat]) /\
  (0%Z <> BUG_BALANCE_EXCLUDES_HOLDS ->
   balance 0 sample_heap bob_with_cash = (Ok (__balance bob_with_cash), bob_with_cash) /\
   balance 0 sample_heap bob_with_check
   = (Ok (__balance bob_with_cash + 100), bob_with_check)).
Proof.
  apply (deposit_effect 0 sample_heap Py.ascii_lower (ACheck 0%nat)
           bob_with_cash bob_with_check).
  - reflexivity.
  - reflexivity.
Defined.

Lemma deposit_duplicate_rejected_witness :
  (exists msg,
     deposit 0 sample_heap Py.ascii_lower (ACheck 0%nat) bob_cleared
     = (Raise (Py.CheckError msg), bob_cleared)) /\
  deposit 0 sample_heap Py.ascii_lower (ACheck 0%nat) bob_cleared
  = (Raise (Py.CheckError MSG_ALREADY_DEPOSITED), bob_cleared).
Proof.
  assert (N : 0%Z <> BUG_DUPLICATE_CHECK) by (unfold BUG_DUPLICATE_CHECK; lia).
  assert (I : In 0%nat (__deposited_checks bob_cleared)) by (simpl; left; reflexivity).
  split.
  - apply (proj1 (deposit_duplicate_rejected 0 sample_heap Py.ascii_lower
                    bob_cleared 0%nat N I)).
    reflexivity.
  - apply (proj2 (deposit_duplicate_rejected 0 sample_heap Py.ascii_lower
                    bob_cleared 0%nat N I)).
    exact bob_cleared_reachable.
Defined.

Lemma deposit_payee_checked_witness :
  deposit 0 sample_heap Py.ascii_lower (ACheck 1%nat) bob_with_check
  = (Raise (Py.CheckError (MSG_PAYEE (sample_heap 1%nat))), bob_with_check) /\
  deposit 0 sample_heap Py.ascii_lower (ACheck 2%nat) bob_with_check
  = (Ok tt, with_check bob_with_check 2%nat 25).
Proof.
  split.
  - apply (proj1 (deposit_payee_checked 0 sample_heap Py.ascii_lower
                    bob_with_check 1%nat eq_refl)
             ltac:(unfold BUG_DEPOSIT_ANY_PAYEE; lia) "Alice"%string).
    + reflexivity.
    + discriminate.
    + discriminate.
  - apply (proj2 (deposit_payee_checked 0 sample_heap Py.ascii_lower
                    bob_with_check 2%nat eq_refl)
             eq_refl).
    simpl. intros [H|[]]. discriminate H.
Defined.

Lemma clear_check_effect_witness :
  (exists s1,
     clear_check 0 sample_heap 0%nat bob_with_check = (Ok tt, s1) /\
     clear_check 0 sample_heap 0%nat s1
     = (Raise (Py.CheckError (MSG_NOT_PENDING (sample_heap 0%nat))), s1)) /\
  clear_check 0 sample_heap 2%nat bob_with_check
  = (Raise (Py.CheckError (MSG_NOT_PENDING (sample_heap 2%nat))), bob_with_check).
Proof.
  split.
  - apply (proj2 (proj2 (clear_check_effect 0 sample_heap bob_with_check 0%nat))).
    + unfold BUG_CLEAR_ANY_CHECK. lia.
    + simpl. constructor; [simpl; tauto | constructor].
    + simpl. left. reflexivity.
  - apply (proj1 (proj2 (clear_check_effect 0 sample_heap bob_with_check 2%nat))).
    + unfold BUG_CLEAR_ANY_CHECK. lia.
    + simpl. intros [H|[]]. discriminate H.
Defined.

Lemma reachable_no_duplicates_witness :
  NoDup (__pending_checks bob_with_check) /\
  NoDup (__deposited_checks bob_with_check).
Proof.
  apply (reachable_no_duplicates 0 sample_heap Py.ascii_lower bob_with_check).
  - unfold BUG_DUPLICATE_CHECK. lia.
  - exact bob_with_check_reachable.
Defined.

(** ** The seeded defects at the sample account

    Each value of [TESTCASE] excluded by a theorem above changes the
    behaviour that theorem describes. *)

Example defect_cant_withdraw_available :
  withdraw BUG_CANT_WITHDRAW_AVAILABLE sample_heap 150 bob_with_cash
  = (Raise (Py.ValueError MSG_EXCEEDS), bob_with_cash).
Proof. reflexivity. Qed.

Example defect_withdraw_fails_silently :
  withdraw BUG_WITHDRAW_FAILS_SILENTLY sample_heap 151 bob_with_cash
  = (Ok None, bob_with_cash).
Proof. reflexivity. Qed.

Example defect_deposit_zero :
  deposit BUG_DEPOSIT_ZERO sample_heap Py.ascii_lower (Cash (mkMoney 0)) bob_account
  = (Ok tt, bob_account) /\
  deposit 0 sample_heap Py.ascii_lower (Cash (mkMoney 0)) bob_account
  = (Raise (Py.ValueError MSG_DEPOSIT_NOT_POSITIVE), bob_account).
Proof. split; reflexivity. Qed.

Example defect_clear_any_check :
  clear_check BUG_CLEAR_ANY_CHECK sample_heap 2%nat bob_with_check
  = (Ok tt, bob_with_check).
Proof. reflexivity. Qed.

Example defect_duplicate_check :
  deposit BUG_DUPLICATE_CHECK sample_heap Py.ascii_lower (ACheck 0%nat) bob_with_check
  = (Ok tt, mkAccount "Bob" 400 50 [0%nat; 0%nat] [0%nat; 0%nat]).
Proof. reflexivity. Qed.

Example defect_deposit_any_payee :
  deposit BUG_DEPOSIT_ANY_PAYEE sample_heap Py.ascii_lower (ACheck 1%nat) bob_account
  = (Ok tt, mkAccount "Bob" 100 50 [1%nat] [1%nat]).
Proof. reflexivity. Qed.

Example defect_balance_excludes_holds :
  balance BUG_BALANCE_EXCLUDES_HOLDS sample_heap bob_with_check
  = (Ok 200, bob_with_check) /\
  balance 0 sample_heap bob_with_check = (Ok 300, bob_with_check).
Proof. split; reflexivity. Qed.

Example defect_available_balance :
  available BUG_AVAILABLE_BALANCE sample_heap bob_with_check
  = (Ok 150, bob_with_check) /\
  available 0 sample_heap bob_with_check = (Ok 200, bob_with_check).
Proof. split; reflexivity. Qed.

Example defect_minimum_is_ignored :
  available BUG_MINIMUM_IS_IGNORED sample_heap bob_with_cash
  = (Ok 200, bob_with_cash) /\
  available 0 sample_heap bob_with_cash = (Ok 150, bob_with_cash).
Proof. split; reflexivity. Qed.

(** ** The rest of the class at the sample account *)

Lemma owner_and_minimum_fixed_witness :
  account_name bob_with_check = (Ok "Bob"%string, bob_with_check) /\
  min_balance bob_with_check = (Ok 50, bob_with_check) /\
  __str__ bob_with_check = (Ok "Bob Account"%string, bob_with_check).
Proof.
  apply (owner_and_minimum_fixed 0 sample_heap Py.ascii_lower "Bob" 50 bob_account
           [Deposit (Cash (mkMoney 200)); Deposit (ACheck 0%nat)]).
  reflexivity.
Defined.

Lemma deposit_not_positive_witness :
  deposit 0 sample_heap Py.ascii_lower (Cash (mkMoney 0)) bob_account
  = (Raise (Py.ValueError MSG_DEPOSIT_NOT_POSITIVE), bob_account).
Proof.
  apply (deposit_not_positive 0 sample_heap Py.ascii_lower (Cash (mkMoney 0))
           bob_account).
  right. split.
  - reflexivity.
  - unfold BUG_DEPOSIT_ZERO. lia.
Defined.

Lemma failed_calls_change_nothing_witness :
  state_after (deposit 0 sample_heap Py.ascii_lower (ACheck 1%nat)) bob_account
  = bob_account /\
  state_after (clear_check 0 sample_heap 2%nat) bob_with_check = bob_with_check.
Proof.
  split.
  - apply (proj1 (failed_calls_change_nothing 0 sample_heap Py.ascii_lower bob_account)
             (ACheck 1%nat)
             (Py.CheckError (MSG_PAYEE (sample_heap 1%nat)))).
    reflexivity.
  - apply (proj2 (failed_calls_change_nothing 0 sample_heap Py.ascii_lower
                    bob_with_check)
             2%nat
             (Py.CheckError (MSG_NOT_PENDING (sample_heap 2%nat)))).
    reflexivity.
Defined.

Lemma deposit_check_accepted_iff_witness :
  exists s',
    deposit 0 sample_heap Py.ascii_lower (ACheck 0%nat) bob_account = (Ok tt, s').
Proof.
  apply (proj2 (deposit_check_accepted_iff 0 sample_heap Py.ascii_lower
                  bob_account 0%nat
                  ltac:(unfold BUG_DEPOSIT_ZERO; lia)
                  ltac:(unfold BUG_DUPLICATE_CHECK; lia)
                  ltac:(unfold BUG_DEPOSIT_ANY_PAYEE; lia))).
  split; [reflexivity|]. split.
  - right. reflexivity.
  - simpl. tauto.
Defined.

Lemma check_status_moves_forward_witness :
  (stage (status bob_with_check 0%nat)
   <= stage (status (run 0 sample_heap Py.ascii_lower bob_with_check
                         [ClearCheck 0%nat]) 0%nat))%nat.
Proof.
  apply (check_status_moves_forward 0 sample_heap Py.ascii_lower bob_with_check
           [ClearCheck 0%nat] 0%nat).
  - unfold BUG_DUPLICATE_CHECK. lia.
  - exact bob_with_check_reachable.
Defined.

Lemma defect_free_default : defect_free 0.
Proof.
  unfold defect_free, BUG_CANT_WITHDRAW_AVAILABLE, BUG_WITHDRAW_FAILS_SILENTLY,
    BUG_DEPOSIT_ZERO, BUG_CLEAR_ANY_CHECK, BUG_DUPLICATE_CHECK,
    BUG_DEPOSIT_ANY_PAYEE, BUG_BALANCE_EXCLUDES_HOLDS, BUG_AVAILABLE_BALANCE,
    BUG_MINIMUM_IS_IGNORED.
  repeat split; lia.
Defined.

Lemma defect_free_behaviour_witness :
  available 0 sample_heap bob_with_check
  = available NO_DEFECTS sample_heap bob_with_check /\
  balance 0 sample_heap bob_with_check
  = balance NO_DEFECTS sample_heap bob_with_check /\
  (forall money, deposit 0 sample_heap Py.ascii_lower money bob_with_check
                 = deposit NO_DEFECTS sample_heap Py.ascii_lower money bob_with_check) /\
  (forall check, clear_check 0 sample_heap check bob_with_check
                 = clear_check NO_DEFECTS sample_heap check bob_with_check) /\
  (forall amount, withdraw 0 sample_heap amount bob_with_check
                  = withdraw NO_DEFECTS sample_heap amount bob_with_check).
Proof.
  apply (defect_free_behaviour 0 sample_heap Py.ascii_lower bob_with_check).
  exact defect_free_default.
Defined.

Lemma config_effective_text_witness :
  config (fun _ => Some EmptyString) "TESTCASE" "8"
         (Some (fun t : string => Ok (String.length t)))
  = Ok (Converted 1%nat) /\
  config (fun _ => Some "5"%string) "TESTCASE" "8" (@None (string -> outcome nat))
  = Ok (Text "5").
Proof.
  split.
  - apply (config_effective_text (fun _ => Some EmptyString) "TESTCASE" "8" "8"
             (Some (fun t : string => Ok (String.length t)))).
    + discriminate.
    + right. split; reflexivity.
  - apply (config_effective_text (fun _ => Some "5"%string) "TESTCASE" "8" "5"
             (@None (string -> outcome nat))).
    + discriminate.
    + left. reflexivity.
Defined.

Lemma config_nothing_to_cast_witness :
  config (fun _ => None) "TESTCASE" EmptyString
         (Some (fun _ : string => @Raise nat (Py.ValueError "invalid literal")))
  = Ok (uncast None) /\
  (@None string = None \/ @None string = Some EmptyString).
Proof.
  apply (config_nothing_to_cast (fun _ => None) "TESTCASE"
           (Some (fun _ : string => @Raise nat (Py.ValueError "invalid literal")))).
  reflexivity.
Defined.

Lemma withdraw_within_available_witness :
  withdraw 0 sample_heap 120 bob_with_cash
  = (Ok (Some (mkMoney 120)),
     with_balance bob_with_cash (__balance bob_with_cash - 120)).
Proof.
  apply (withdraw_within_available 0 sample_heap bob_with_cash 120 150).
  - reflexivity.
  - reflexivity.
  - reflexivity.
  - left. reflexivity.
Defined.

Lemma withdraw_paid_only_within_available_witness :
  mkMoney 120 = mkMoney 120 /\
  Py.le 120 0 = false /\
  (exists av, available 0 sample_heap bob_with_cash = (Ok av, bob_with_cash) /\
              Py.lt av 120 = false /\
              (Py.isnan 120 = false -> Py.lt 0 120 = true /\ Py.le 120 av = true)) /\
  mkAccount "Bob" 80 50 [] []
  = with_balance bob_with_cash (__balance bob_with_cash - 120).
Proof.
  apply (withdraw_paid_only_within_available 0 sample_heap bob_with_cash
           (mkAccount "Bob" 80 50 [] []) 120 (mkMoney 120)).
  reflexivity.
Defined.

(** The ledger of the sample calls: 0 + 200 + 100 - 100. *)
Example sample_ledger :
  ledger 0 sample_heap Py.ascii_lower bob_account sample_calls 0 = 0 + 200 + 100 - 100.
Proof. reflexivity. Qed.
